(** * Ray Serve client API ([python/ray/serve/api.py])

    A shallow embedding of the module-level client API of Ray Serve and of
    the control-plane contract it talks to.

    - Python values that the API inspects at run time ([isinstance],
      [is None], [startswith], [sort], [upper]) are modelled by [value].
    - The API is stateful: it keeps the module global [controller] and talks
      to a named, detached actor of the Ray cluster.  Both live in [World];
      every API function is a computation in the state-and-exception monad
      [M].
    - What [api.py] imports from [ray.serve.controller], [ray.serve.config],
      [ray.serve.utils] and [ray.serve.constants] is an interface
      ([ServeEnv], [ServeController]); the registry behind the controller
      is modelled from the specification in [Module SpecController]. *)

From Stdlib Require Import ZArith QArith Qabs Ascii String.
From stdpp Require Import base option list strings gmap fin_maps.

Local Open Scope string_scope.
Local Open Scope Z_scope.

(** ** Python values *)

(** Scalars.  [AFloat] carries a rational: weights and proportions are
    compared and added as numbers.  [AObject] is any other object
    (a callable, a class, ...), identified by a label. *)
Inductive atom :=
| ANone
| AInt (z : Z)
| AFloat (q : Q)
| AStr (s : string)
| AObject (label : string).

(** An argument is a scalar or a list of scalars. *)
Inductive value :=
| VAtom (a : atom)
| VList (l : list atom).

Abbreviation VNone := (VAtom ANone).
Abbreviation VStr s := (VAtom (AStr s)).
Abbreviation VInt z := (VAtom (AInt z)).
Abbreviation VFloat q := (VAtom (AFloat q)).

(** ** Exceptions *)

(** The classes [api.py] raises itself come first; [RayActorError] is what
    a call on a dead actor raises; the last three are the specification's
    names for the failures of the controller. *)
Inductive exn_class :=
| TypeError
| ValueError
| AssertionError
| IndexError
| AttributeError
| RayServeException
| RayActorError
| ValidationError
| ConflictError
| NotFoundError.

(** An exception: its class and its message (format strings are kept
    unformatted). *)
Record exn := Exn { exn_cls : exn_class; exn_msg : string }.

Inductive outcome (A : Type) :=
| Return (a : A)
| Raise (e : exn).
Arguments Return {A} a.
Arguments Raise {A} e.

Definition outcome_bind {A B} (f : A → outcome B) (o : outcome A) : outcome B :=
  match o with
  | Return a => f a
  | Raise e => Raise e
  end.

Definition is_raise {A} (o : outcome A) : bool :=
  match o with
  | Return _ => false
  | Raise _ => true
  end.

(** ** Strings *)

(** [str.startswith("/")]. *)
Definition startswith_slash (s : string) : bool :=
  match s with
  | String c _ => bool_decide (c = "/"%char)
  | EmptyString => false
  end.

(** A route is [None] or starts with a slash. *)
Definition route_ok (route : option string) : bool :=
  match route with
  | Some s => startswith_slash s
  | None => true
  end.

(** [str.upper()] on ASCII text: a..z go to A..Z, every other byte stays. *)
Definition upper_ascii (c : ascii) : ascii :=
  let n := nat_of_ascii c in
  if (97 <=? n)%nat && (n <=? 122)%nat then ascii_of_nat (n - 32) else c.

Fixpoint upper (s : string) : string :=
  match s with
  | EmptyString => EmptyString
  | String c s' => String (upper_ascii c) (upper s')
  end.



(** What upper-casing a string means, said without [upper]: the two
    alphabets, and the capital of a character by its place in them. *)
Definition lower_letters : string := "abcdefghijklmnopqrstuvwxyz".
Definition upper_letters : string := "ABCDEFGHIJKLMNOPQRSTUVWXYZ".

(** The capital of a letter a..z; any other character is its own. *)
Definition capital (c : ascii) : ascii :=
  match String.index 0 (String c EmptyString) lower_letters with
  | Some i => default c (String.get i upper_letters)
  | None => c
  end.


(** ** [list.sort()] *)

Definition atom_number (a : atom) : option Q :=
  match a with
  | AInt z => Some (inject_Z z)
  | AFloat q => Some q
  | _ => None
  end.

(** [a < b]: defined between two numbers and between two strings; every
    other pair raises [TypeError] ([None]). *)
Definition py_lt (a b : atom) : option bool :=
  match a, b with
  | AStr s, AStr t => Some (String.ltb s t)
  | _, _ =>
    match atom_number a, atom_number b with
    | Some x, Some y => Some (negb (Qle_bool y x))
    | _, _ => None
    end
  end.

(** Stable insertion: [x] stood before every element of [l]. *)
Fixpoint sort_insert (x : atom) (l : list atom) : option (list atom) :=
  match l with
  | [] => Some [x]
  | y :: l' =>
    match py_lt y x with
    | None => None
    | Some true => cons y <$> sort_insert x l'
    | Some false => Some (x :: y :: l')
    end
  end.

Fixpoint sorted (l : list atom) : option (list atom) :=
  match l with
  | [] => Some []
  | x :: l' =>
    match sorted l' with
    | Some s => sort_insert x s
    | None => None
    end
  end.

(** [l.sort()]: sorts [l] in place and returns [None], here [tt] next to the
    new contents of [l]; raises [TypeError] when two elements do not
    compare. *)
Definition list_sort (l : list atom) : outcome (unit * list atom) :=
  match sorted l with
  | Some s => Return (tt, s)
  | None => Raise (Exn TypeError "'<' not supported between instances")
  end.

(** ** Configuration objects ([ray.serve.config]) *)

Record BackendMetadata := {
  accepts_batches : bool;
  is_blocking : bool
}.

(** Modelled from the spec: the fields of [BackendConfig] (section 3, data
    model); the class itself is in [ray/serve/config.py].  A field that was
    not set is [None]; [max_batch_size] is optional also once set.  The same
    record stands for the dictionary of options the API accepts in place of
    a [BackendConfig]. *)
Record BackendConfig := {
  num_replicas : option Z;
  max_batch_size : option (option Z);
  batch_wait_timeout : option Q;
  max_concurrent_queries : option Z;
  internal_metadata : option BackendMetadata
}.

Definition no_options : BackendConfig :=
  {| num_replicas := None; max_batch_size := None; batch_wait_timeout := None;
     max_concurrent_queries := None; internal_metadata := None |}.

Definition with_metadata (m : BackendMetadata) (c : BackendConfig) : BackendConfig :=
  {| num_replicas := num_replicas c;
     max_batch_size := max_batch_size c;
     batch_wait_timeout := batch_wait_timeout c;
     max_concurrent_queries := max_concurrent_queries c;
     internal_metadata := Some m |}.

(** The [config] / [config_options] argument: a dictionary, a
    [BackendConfig], or anything else. *)
Inductive config_arg :=
| CfgDict (d : BackendConfig)
| CfgObject (c : BackendConfig)
| CfgOther (v : value).

(** What [list_endpoints] shows of one endpoint. *)
Record endpoint_info := {
  ep_route : option string;
  ep_methods : list string;
  ep_traffic : gmap string Q
}.

(** ** What [api.py] imports *)

(** Constants, helpers and configuration classes of the package that
    [api.py] uses and that are defined in other modules. *)
Class ServeEnv := {
  SERVE_CONTROLLER_NAME : string;
  HTTP_PROXY_TIMEOUT : Z;
  format_actor_name : string → option string → string;
  (** the readiness probe of one node: node id, url pieces, timeout *)
  block_until_http_ready : string → string → Z → Z → outcome unit;
  replica_config : Type;
  ReplicaConfig : value → list value → value → outcome replica_config;
  rc_accepts_batches : replica_config → bool;
  rc_is_blocking : replica_config → bool;
  parse_obj : BackendConfig → outcome BackendConfig;
  _validate_complete : BackendConfig → outcome unit;
  router : Type
}.

(** The [ServeController] actor: its state and its remote methods.  A
    method runs on the actor's state and returns or raises.  The listing
    methods [get_all_endpoints], [get_all_backends] and [get_routers] are
    read-only snapshots without failure modes (specification, sections 4.1,
    4.2 and 6), hence functions of the state. *)
Class ServeController `{ServeEnv} := {
  ctl : Type;
  ServeController_init : option string → string → Z → list value → ctl;
  remote_shutdown : ctl → outcome unit * ctl;
  remote_get_all_endpoints : ctl → gmap string endpoint_info;
  remote_get_all_backends : ctl → gmap string BackendConfig;
  remote_get_routers : ctl → list router;
  remote_create_endpoint :
    string → gmap string Q → option string → list string → ctl → outcome unit * ctl;
  remote_delete_endpoint : string → ctl → outcome unit * ctl;
  remote_update_backend_config : string → BackendConfig → ctl → outcome unit * ctl;
  remote_get_backend_config : string → ctl → outcome BackendConfig * ctl;
  remote_create_backend :
    string → BackendConfig → replica_config → ctl → outcome unit * ctl;
  remote_delete_backend : string → ctl → outcome unit * ctl;
  remote_set_traffic : string → gmap string Q → ctl → outcome unit * ctl;
  remote_shadow_traffic : string → string → Q → ctl → outcome unit * ctl
}.

(** ** The world: the Ray cluster and the module global *)

Section API.
Context `{Ctl : ServeController}.

(** [controller] is the module global of [api.py]: [None] or the handle of
    the controller actor, which is the name the actor is registered under.
    [actors] are the named actors alive in the cluster, [probes] the
    readiness probes launched so far (node id, host, port). *)
Record World := mkWorld {
  ray_is_initialized : bool;
  node_ids : list string;
  actors : gmap string ctl;
  probes : list (string * string * Z);
  controller : option string
}.

Definition set_controller (h : option string) (w : World) : World :=
  mkWorld (ray_is_initialized w) (node_ids w) (actors w) (probes w) h.

Definition set_actors (a : gmap string ctl) (w : World) : World :=
  mkWorld (ray_is_initialized w) (node_ids w) a (probes w) (controller w).

Definition set_probes (p : list (string * string * Z)) (w : World) : World :=
  mkWorld (ray_is_initialized w) (node_ids w) (actors w) p (controller w).

Definition set_ray_is_initialized (b : bool) (w : World) : World :=
  mkWorld b (node_ids w) (actors w) (probes w) (controller w).

(** ** The monad of API calls: state and exceptions *)

Definition M (A : Type) : Type := World → outcome A * World.

#[export] Instance M_ret : MRet M := λ A a w, (Return a, w).

#[export] Instance M_bind : MBind M := λ A B f m w,
  match m w with
  | (Return a, w') => f a w'
  | (Raise e, w') => (Raise e, w')
  end.

#[export] Instance M_fmap : FMap M := λ A B f m, a ← m; mret (f a).

Definition raise {A} (c : exn_class) (msg : string) : M A :=
  λ w, (Raise (Exn c msg), w).

Definition lift {A} (o : outcome A) : M A := λ w, (o, w).

Definition get_world : M World := λ w, (Return w, w).

Definition modify (f : World → World) : M unit := λ w, (Return tt, f w).

(** [ray.get(controller.method.remote(...))]: the method runs on the actor
    the global points to. *)
Definition remote {A} (method : ctl → outcome A * ctl) : M A := λ w,
  match controller w with
  | None => (Raise (Exn AttributeError "'NoneType' object has no attribute"), w)
  | Some h =>
    match actors w !! h with
    | None => (Raise (Exn RayActorError "The actor died unexpectedly"), w)
    | Some c =>
      let '(r, c') := method c in (r, set_actors (<[h := c']> (actors w)) w)
    end
  end.

(** The same for a method that only reads. *)
Definition remote_read {A} (method : ctl → A) : M A := λ w,
  match controller w with
  | None => (Raise (Exn AttributeError "'NoneType' object has no attribute"), w)
  | Some h =>
    match actors w !! h with
    | None => (Raise (Exn RayActorError "The actor died unexpectedly"), w)
    | Some c => (Return (method c), w)
    end
  end.

(** ** [api.py] *)

Definition not_connected : exn :=
  Exn RayServeException
    "Please run serve.init to initialize or connect to existing ray serve cluster.".

Definition _get_controller : M string := λ w,
  match controller w with
  | None => (Raise not_connected, w)
  | Some h => (Return h, w)
  end.

(** The decorator [@_ensure_connected]. *)
Definition _ensure_connected {A} (f : M A) : M A :=
  _ ← _get_controller; f.

(** [ray.get(futures)] over the probes of all nodes: the first failure is
    raised. *)
Fixpoint ray_get_all (futures : list (outcome unit)) : outcome unit :=
  match futures with
  | [] => Return tt
  | Return _ :: rest => ray_get_all rest
  | Raise e :: _ => Raise e
  end.

Definition init (name : value) (http_host : string) (http_port : Z)
    (http_middlewares : list value) : M unit :=
  match name with
  | VAtom (AInt _) | VAtom (AFloat _) | VAtom (AObject _) | VList _ =>
    raise TypeError "name must be a string."
  | VAtom ANone | VAtom (AStr _) =>
    let name := match name with VStr s => Some s | _ => None end in
    (* Initialize ray if needed. *)
    w ← get_world;
    (if ray_is_initialized w then mret tt
     else modify (set_ray_is_initialized true));;
    (* Try to get serve controller if it exists *)
    let controller_name := format_actor_name SERVE_CONTROLLER_NAME name in
    w ← get_world;
    match actors w !! controller_name with
    | Some _ => modify (set_controller (Some controller_name))
    | None =>
      modify (λ w, set_controller (Some controller_name)
        (set_actors (<[controller_name :=
           ServeController_init name http_host http_port http_middlewares]>
           (actors w)) w));;
      w ← get_world;
      modify (set_probes
        (probes w ++ ((λ n, (n, http_host, http_port)) <$> node_ids w))%list);;
      lift (ray_get_all ((λ n,
        block_until_http_ready n http_host http_port HTTP_PROXY_TIMEOUT)
        <$> node_ids w))
    end
  end.

Definition shutdown : M unit :=
  _ensure_connected (
    remote remote_shutdown;;
    (* ray.kill(controller, no_restart=True) *)
    w ← get_world;
    modify (set_actors
      (match controller w with
       | Some h => delete h (actors w)
       | None => actors w
       end));;
    modify (set_controller None)).

Definition list_endpoints : M (gmap string endpoint_info) :=
  _ensure_connected (remote_read remote_get_all_endpoints).

Definition conflict_msg : string :=
  "Route '{}' is already registered to endpoint '{}' with methods '{}'.  To set the backend for this endpoint, please use serve.set_traffic().".

(** The loop that builds [upper_methods]. *)
Fixpoint upper_methods (methods : list atom) : outcome (list string) :=
  match methods with
  | [] => Return []
  | AStr method :: rest =>
    outcome_bind (λ u, Return (upper method :: u)) (upper_methods rest)
  | _ :: _ =>
    Raise (Exn TypeError
      "methods must be a list of strings, but contained an element of type {}")
  end.

Definition create_endpoint (endpoint_name : string)
    (backend route methods : value) : M unit :=
  _ensure_connected (
    backend ← match backend with
      | VAtom ANone =>
        raise TypeError "backend must be specified when creating an endpoint."
      | VAtom (AStr b) => mret b
      | _ => raise TypeError "backend must be a string, got {}."
      end;
    route ← match route with
      | VAtom ANone => mret None
      | VAtom (AStr r) =>
        if startswith_slash r then mret (Some r)
        else raise TypeError "route must be a string starting with '/'."
      | _ => raise TypeError "route must be a string starting with '/'."
      end;
    methods ← match methods with
      | VList l => mret l
      | VAtom _ =>
        raise TypeError "methods must be a list of strings, but got type {}"
      end;
    endpoints ← list_endpoints;
    methods ← match endpoints !! endpoint_name with
      | Some old =>
        '(methods_old_sort, _) ← lift (list_sort (AStr <$> ep_methods old));
        '(methods_sort, methods) ← lift (list_sort methods);
        if bool_decide (methods_old_sort = methods_sort)
           && bool_decide (ep_route old = route)
        then raise ValueError conflict_msg
        else mret methods
      | None => mret methods
      end;
    upper_methods ← lift (upper_methods methods);
    remote (remote_create_endpoint endpoint_name {[backend := 1%Q]} route
              upper_methods)).
Definition delete_endpoint (endpoint : string) : M unit :=
  _ensure_connected (remote (remote_delete_endpoint endpoint)).

Definition update_backend_config (backend_tag : string)
    (config_options : config_arg) : M unit :=
  _ensure_connected (
    match config_options with
    | CfgOther _ =>
      raise TypeError "config_options must be a BackendConfig or dictionary."
    | CfgDict o | CfgObject o =>
      remote (remote_update_backend_config backend_tag o)
    end).

Definition get_backend_config (backend_tag : string) : M BackendConfig :=
  _ensure_connected (remote (remote_get_backend_config backend_tag)).

Definition list_backends : M (gmap string BackendConfig) :=
  _ensure_connected (remote_read remote_get_all_backends).

Definition already_registered_msg : string :=
  "Cannot create backend. Backend '{}' is already registered.".

Definition create_backend (backend_tag : string) (func_or_class : value)
    (actor_init_args : list value) (ray_actor_options : value)
    (config : option config_arg) : M unit :=
  _ensure_connected (
    backends ← list_backends;
    if bool_decide (is_Some (backends !! backend_tag))
    then raise ValueError already_registered_msg
    else
      let config := default (CfgDict no_options) config in
      replica_config ←
        lift (ReplicaConfig func_or_class actor_init_args ray_actor_options);
      let metadata :=
        {| accepts_batches := rc_accepts_batches replica_config;
           is_blocking := rc_is_blocking replica_config |} in
      backend_config ← match config with
        | CfgDict d => lift (parse_obj (with_metadata metadata d))
        | CfgObject c => mret (with_metadata metadata c)
        | CfgOther _ =>
          raise TypeError "config must be a BackendConfig or a dictionary."
        end;
      lift (_validate_complete backend_config);;
      remote (remote_create_backend backend_tag backend_config replica_config)).

Definition delete_backend (backend_tag : string) : M unit :=
  _ensure_connected (remote (remote_delete_backend backend_tag)).

Definition set_traffic (endpoint_name : string)
    (traffic_policy_dictionary : gmap string Q) : M unit :=
  _ensure_connected (
    remote (remote_set_traffic endpoint_name traffic_policy_dictionary)).

Definition shadow_traffic (endpoint_name backend_tag : string)
    (proportion : value) : M unit :=
  _ensure_connected (
    match proportion with
    | VAtom a =>
      match atom_number a with
      | Some p =>
        if Qle_bool 0 p && Qle_bool p 1
        then remote (remote_shadow_traffic endpoint_name backend_tag p)
        else raise TypeError "proportion must be a float from 0 to 1."
      | None => raise TypeError "proportion must be a float from 0 to 1."
      end
    | VList _ => raise TypeError "proportion must be a float from 0 to 1."
    end).

(** [RayServeHandle(router, endpoint_name)]. *)
Record RayServeHandle := {
  handle_router : router;
  handle_endpoint : string
}.

Definition get_handle (endpoint_name : string) (missing_ok : bool)
    : M RayServeHandle :=
  _ensure_connected (
    (if negb missing_ok then
       endpoints ← remote_read remote_get_all_endpoints;
       if bool_decide (is_Some (endpoints !! endpoint_name)) then mret tt
       else raise AssertionError ""
     else mret tt);;
    routers ← remote_read remote_get_routers;
    match routers with
    | r :: _ =>
      mret {| handle_router := r; handle_endpoint := endpoint_name |}
    | [] => raise IndexError "list index out of range"
    end).

(** ** The administrative surface as data *)

(** One call of a function of [api.py] other than [init], with its
    arguments. *)
Inductive call :=
| Shutdown
| CreateEndpoint (endpoint_name : string) (backend route methods : value)
| DeleteEndpoint (endpoint : string)
| ListEndpoints
| UpdateBackendConfig (backend_tag : string) (config_options : config_arg)
| GetBackendConfig (backend_tag : string)
| CreateBackend (backend_tag : string) (func_or_class : value)
    (actor_init_args : list value) (ray_actor_options : value)
    (config : option config_arg)
| ListBackends
| DeleteBackend (backend_tag : string)
| SetTraffic (endpoint_name : string) (traffic : gmap string Q)
| ShadowTraffic (endpoint_name backend_tag : string) (proportion : value)
| GetHandle (endpoint_name : string) (missing_ok : bool).

(** What a call returns. *)
Inductive reply :=
| RNone
| REndpoints (e : gmap string endpoint_info)
| RBackends (b : gmap string BackendConfig)
| RConfig (c : BackendConfig)
| RHandle (h : RayServeHandle).

Definition run (c : call) : M reply :=
  match c with
  | Shutdown => shutdown;; mret RNone
  | CreateEndpoint n b r m => create_endpoint n b r m;; mret RNone
  | DeleteEndpoint e => delete_endpoint e;; mret RNone
  | ListEndpoints => REndpoints <$> list_endpoints
  | UpdateBackendConfig t o => update_backend_config t o;; mret RNone
  | GetBackendConfig t => RConfig <$> get_backend_config t
  | CreateBackend t f a o c => create_backend t f a o c;; mret RNone
  | ListBackends => RBackends <$> list_backends
  | DeleteBackend t => delete_backend t;; mret RNone
  | SetTraffic e t => set_traffic e t;; mret RNone
  | ShadowTraffic e t p => shadow_traffic e t p;; mret RNone
  | GetHandle e ok => RHandle <$> get_handle e ok
  end.

(** A script of calls, run until the first one that raises. *)
Fixpoint run_all (cs : list call) : M (list reply) :=
  match cs with
  | [] => mret []
  | c :: cs => r ← run c; rs ← run_all cs; mret (r :: rs)
  end.

(** ** Vocabulary of the properties *)

(** The Python value of an optional string. *)
Definition optional_str (o : option string) : value :=
  match o with
  | Some s => VStr s
  | None => VNone
  end.

(** The process holds the handle [h] of the live controller [c]. *)
Definition connected_to (w : World) (h : string) (c : ctl) : Prop :=
  controller w = Some h ∧ actors w !! h = Some c.

(** The [TypeError] of the check of [backend]. *)
Definition backend_type_error (backend : value) : exn :=
  match backend with
  | VNone => Exn TypeError "backend must be specified when creating an endpoint."
  | _ => Exn TypeError "backend must be a string, got {}."
  end.

Definition route_type_error : exn :=
  Exn TypeError "route must be a string starting with '/'.".

(** [route] is not [None] and is not a string that starts with a slash. *)
Definition bad_route (route : value) : Prop :=
  route ≠ VNone ∧ ∀ r, route = VStr r → startswith_slash r = false.


(** Messages of the [TypeError]s of the argument checks. *)
Definition not_a_string_msg : string :=
  "methods must be a list of strings, but contained an element of type {}".

Definition config_options_msg : string :=
  "config_options must be a BackendConfig or dictionary.".

Definition config_msg : string :=
  "config must be a BackendConfig or a dictionary.".

Definition proportion_msg : string := "proportion must be a float from 0 to 1.".

(** [isinstance(v, (float, int))]: the number [v] stands for. *)
Definition as_number (v : value) : option Q :=
  match v with
  | VAtom a => atom_number a
  | VList _ => None
  end.

(** The readiness probes [init] waits for, one per node. *)
Definition readiness (http_host : string) (http_port : Z) (w : World)
    : list (outcome unit) :=
  (λ n, block_until_http_ready n http_host http_port HTTP_PROXY_TIMEOUT)
    <$> node_ids w.

(** The metadata [create_backend] derives from the replica configuration. *)
Definition metadata_of (rc : replica_config) : BackendMetadata :=
  {| accepts_batches := rc_accepts_batches rc;
     is_blocking := rc_is_blocking rc |}.

End API.

(** ** The controller's registries, from the specification *)

Module SpecController.

(** Modelled from the spec: the parameters the specification leaves open,
    the tolerance of the weight sum (section 3, [ε]) and the router
    instances the controller supervises (section 2). *)
Class Params `{ServeEnv} := {
  eps : Q;
  started_routers : list router
}.

Section Registry.
Context `{P : Params}.

(** Modelled from the spec: an Endpoint (section 3): what [list] shows of
    it, and its shadow proportions, which are kept apart from the
    weights. *)
Record endpoint := {
  info : endpoint_info;
  shadow : gmap string Q
}.

(** Modelled from the spec: a Backend (section 3), unique by tag. *)
Record backend := {
  config : BackendConfig;
  replica : replica_config
}.

(** Modelled from the spec: the state the Controller owns (section 2):
    Endpoint Registry, Backend Registry and its Router instances. *)
Record registry := {
  endpoints : gmap string endpoint;
  backends : gmap string backend;
  routers : list router
}.

Definition set_endpoints (e : gmap string endpoint) (r : registry) : registry :=
  {| endpoints := e; backends := backends r; routers := routers r |}.

Definition set_backends (b : gmap string backend) (r : registry) : registry :=
  {| endpoints := endpoints r; backends := b; routers := routers r |}.

Definition fail {A} (c : exn_class) (msg : string) (r : registry)
    : outcome A * registry :=
  (Raise (Exn c msg), r).

(** Modelled from the spec: section 4.4, [Initializing] with no prior
    checkpoint: empty registries. *)
Definition start (name : option string) (http_host : string) (http_port : Z)
    (http_middlewares : list value) : registry :=
  {| endpoints := ∅; backends := ∅; routers := started_routers |}.

(** Modelled from the spec: section 4.4, [ShuttingDown]: tears down all
    backends and the routers. *)
Definition shutdown (r : registry) : outcome unit * registry :=
  (Return tt, {| endpoints := ∅; backends := ∅; routers := [] |}).

(** Modelled from the spec: section 4.1, [list]. *)
Definition get_all_endpoints (r : registry) : gmap string endpoint_info :=
  info <$> endpoints r.

(** Modelled from the spec: section 4.2, [list]. *)
Definition get_all_backends (r : registry) : gmap string BackendConfig :=
  config <$> backends r.

Definition get_routers (r : registry) : list router := routers r.

(** Modelled from the spec: section 4.1, [create]: the conflict on an
    identical (route, methods) pair, the check of the route, the
    upper-casing, and the single-backend policy installed with the
    endpoint.  Methods are a set (section 3). *)
Definition create_endpoint (name : string) (traffic : gmap string Q)
    (route : option string) (methods : list string) (r : registry)
    : outcome unit * registry :=
  let methods := upper <$> methods in
  let identical (e : endpoint) :=
    bool_decide (ep_route (info e) = route)
    && bool_decide (list_to_set (ep_methods (info e)) =@{gset string}
                    list_to_set methods) in
  if from_option identical false (endpoints r !! name)
  then fail ConflictError "endpoint exists with this route and methods" r
  else if negb (route_ok route)
  then fail ValidationError "route must start with '/'" r
  else
    (Return tt,
     set_endpoints
       (<[name := {| info := {| ep_route := route; ep_methods := methods;
                               ep_traffic := traffic |};
                     shadow := ∅ |}]> (endpoints r)) r).

(** Modelled from the spec: section 4.1, [delete]. *)
Definition delete_endpoint (name : string) (r : registry)
    : outcome unit * registry :=
  match endpoints r !! name with
  | None => fail NotFoundError "no such endpoint" r
  | Some _ => (Return tt, set_endpoints (delete name (endpoints r)) r)
  end.

(** [sum(w.values())]. *)
Definition weight_sum (weights : gmap string Q) : Q :=
  foldr Qplus 0%Q (snd <$> map_to_list weights).

(** The sum of the weights is 1.0 ± ε. *)
Definition sums_to_one (weights : gmap string Q) : bool :=
  Qle_bool (Qabs (weight_sum weights - 1)) eps.

(** Every backend tag of the policy is in the Backend Registry. *)
Definition all_registered (weights : gmap string Q) (r : registry) : bool :=
  forallb (λ tag, bool_decide (is_Some (backends r !! tag)))
          (fst <$> map_to_list weights).

(** The weights sum to 1.0 within [eps] and name registered backends
    only. *)
Definition valid_weights (weights : gmap string Q) (r : registry) : Prop :=
  (Qabs (weight_sum weights - 1) <= eps)%Q
  ∧ ∀ tag, is_Some (weights !! tag) → is_Some (backends r !! tag).

Definition with_traffic (weights : gmap string Q) (e : endpoint) : endpoint :=
  {| info := {| ep_route := ep_route (info e);
                ep_methods := ep_methods (info e);
                ep_traffic := weights |};
     shadow := shadow e |}.

(** Modelled from the spec: section 4.1, [set_traffic]: [ValidationError]
    if the weights do not sum to 1.0 (±ε) or reference an unregistered
    backend; otherwise replaces [weights] (not [shadow]).  An unknown
    endpoint is a [NotFoundError] (section 7). *)
Definition set_traffic (name : string) (weights : gmap string Q)
    (r : registry) : outcome unit * registry :=
  if negb (sums_to_one weights)
  then fail ValidationError "weights must sum to 1" r
  else if negb (all_registered weights r)
  then fail ValidationError "backend is not registered" r
  else
    match endpoints r !! name with
    | None => fail NotFoundError "no such endpoint" r
    | Some e =>
      (Return tt, set_endpoints (<[name := with_traffic weights e]> (endpoints r)) r)
    end.

Definition with_shadow (s : gmap string Q) (e : endpoint) : endpoint :=
  {| info := info e; shadow := s |}.

(** Modelled from the spec: section 4.1, [shadow_traffic]. *)
Definition shadow_traffic (name tag : string) (proportion : Q)
    (r : registry) : outcome unit * registry :=
  if negb (Qle_bool 0 proportion && Qle_bool proportion 1)
  then fail ValidationError "proportion must be in [0,1]" r
  else if negb (bool_decide (is_Some (backends r !! tag)))
  then fail ValidationError "backend is not registered" r
  else
    match endpoints r !! name with
    | None => fail NotFoundError "no such endpoint" r
    | Some e =>
      if bool_decide (is_Some (ep_traffic (info e) !! tag))
      then fail ConflictError "backend carries primary traffic" r
      else
        let s := if Qeq_bool proportion 0 then delete tag (shadow e)
                 else <[tag := proportion]> (shadow e) in
        (Return tt, set_endpoints (<[name := with_shadow s e]> (endpoints r)) r)
    end.

(** Completeness of a configuration, as [_validate_complete] judges it. *)
Definition complete (c : BackendConfig) : bool :=
  negb (is_raise (_validate_complete c)).

(** Modelled from the spec: section 4.2, [create]. *)
Definition create_backend (tag : string) (c : BackendConfig)
    (rc : replica_config) (r : registry) : outcome unit * registry :=
  match backends r !! tag with
  | Some _ => fail ConflictError "backend tag exists" r
  | None =>
    if complete c
    then (Return tt,
          set_backends (<[tag := {| config := c; replica := rc |}]> (backends r)) r)
    else fail ValidationError "backend configuration is incomplete" r
  end.

(** A supplied field replaces the old one; a field not supplied keeps it. *)
Definition supplied {A} (new old : option A) : option A :=
  match new with
  | Some v => Some v
  | None => old
  end.

Definition merge_config (old new : BackendConfig) : BackendConfig :=
  {| num_replicas := supplied (num_replicas new) (num_replicas old);
     max_batch_size := supplied (max_batch_size new) (max_batch_size old);
     batch_wait_timeout :=
       supplied (batch_wait_timeout new) (batch_wait_timeout old);
     max_concurrent_queries :=
       supplied (max_concurrent_queries new) (max_concurrent_queries old);
     internal_metadata :=
       supplied (internal_metadata new) (internal_metadata old) |}.

(** Modelled from the spec: section 4.2, [update_config]: merges only the
    supplied fields and re-validates completeness. *)
Definition update_backend_config (tag : string) (partial : BackendConfig)
    (r : registry) : outcome unit * registry :=
  match backends r !! tag with
  | None => fail NotFoundError "no such backend" r
  | Some b =>
    let c := merge_config (config b) partial in
    if complete c
    then (Return tt,
          set_backends (<[tag := {| config := c; replica := replica b |}]>
                          (backends r)) r)
    else fail ValidationError "backend configuration is incomplete" r
  end.

(** Modelled from the spec: section 4.2, [get]. *)
Definition get_backend_config (tag : string) (r : registry)
    : outcome BackendConfig * registry :=
  match backends r !! tag with
  | None => fail NotFoundError "no such backend" r
  | Some b => (Return (config b), r)
  end.

(** Some endpoint's weights or shadow proportions name [tag]. *)
Definition referenced (tag : string) (r : registry) : bool :=
  existsb (λ e, bool_decide (is_Some (ep_traffic (info e) !! tag))
                || bool_decide (is_Some (shadow e !! tag)))
          (snd <$> map_to_list (endpoints r)).

(** Modelled from the spec: section 4.2, [delete]. *)
Definition delete_backend (tag : string) (r : registry)
    : outcome unit * registry :=
  if referenced tag r
  then fail ConflictError "backend is in use" r
  else
    match backends r !! tag with
    | None => fail NotFoundError "no such backend" r
    | Some _ => (Return tt, set_backends (delete tag (backends r)) r)
    end.

#[export] Instance controller : ServeController := {
  ctl := registry;
  ServeController_init := start;
  remote_shutdown := shutdown;
  remote_get_all_endpoints := get_all_endpoints;
  remote_get_all_backends := get_all_backends;
  remote_get_routers := get_routers;
  remote_create_endpoint := create_endpoint;
  remote_delete_endpoint := delete_endpoint;
  remote_update_backend_config := update_backend_config;
  remote_get_backend_config := get_backend_config;
  remote_create_backend := create_backend;
  remote_delete_backend := delete_backend;
  remote_set_traffic := set_traffic;
  remote_shadow_traffic := shadow_traffic
}.

End Registry.
End SpecController.

(** ** A concrete environment to run the API in *)

Module Example.

Definition format (actor_name : string) (controller_name : option string) : string :=
  match controller_name with
  | None => actor_name
  | Some c => c +:+ ":" +:+ actor_name
  end.

(** Defaults for the fields a dictionary leaves out. *)
Definition with_defaults (c : BackendConfig) : BackendConfig :=
  {| num_replicas := Some (default 1 (num_replicas c));
     max_batch_size := Some (default None (max_batch_size c));
     batch_wait_timeout := Some (default 0%Q (batch_wait_timeout c));
     max_concurrent_queries := Some (default 8 (max_concurrent_queries c));
     internal_metadata := internal_metadata c |}.

Definition all_set (c : BackendConfig) : bool :=
  bool_decide (is_Some (num_replicas c))
  && bool_decide (is_Some (max_batch_size c))
  && bool_decide (is_Some (batch_wait_timeout c))
  && bool_decide (is_Some (max_concurrent_queries c))
  && bool_decide (is_Some (internal_metadata c)).

Definition env : ServeEnv := {|
  SERVE_CONTROLLER_NAME := "SERVE_CONTROLLER_ACTOR";
  HTTP_PROXY_TIMEOUT := 60;
  format_actor_name := format;
  block_until_http_ready := λ _ _ _ _, Return tt;
  replica_config := value * list value * value;
  ReplicaConfig := λ f args opts, Return (f, args, opts);
  rc_accepts_batches := λ _, false;
  rc_is_blocking := λ _, true;
  parse_obj := λ c, Return (with_defaults c);
  _validate_complete := λ c,
    if all_set c then Return tt
    else Raise (Exn ValueError "configuration is incomplete");
  router := string
|}.

Definition params : @SpecController.Params env := {|
  SpecController.eps := 1 # 50;
  SpecController.started_routers := [("router-0" : @router env)]
|}.

Definition ctl : @ServeController env := @SpecController.controller env params.

Definition world : Type := @World env ctl.

(** A process that has not called [init]; no controller runs. *)
Definition fresh : world :=
  mkWorld false ["node-0"] ∅ [] None.

Definition handle : string := "SERVE_CONTROLLER_ACTOR".

Definition default_config : BackendConfig :=
  {| num_replicas := Some 1;
     max_batch_size := Some None;
     batch_wait_timeout := Some 0%Q;
     max_concurrent_queries := Some 8;
     internal_metadata := Some {| accepts_batches := false; is_blocking := true |} |}.

Definition backend_f : @SpecController.backend env :=
  {| SpecController.config := default_config;
     SpecController.replica :=
       ((VAtom (AObject "f"), [], VNone) : @replica_config env) |}.

(** Two backends, and the endpoint ["e"] on route ["/a"], method GET, all
    traffic to ["b1"]. *)
Definition registry : @SpecController.registry env :=
  {| SpecController.endpoints :=
       {[ "e" := {| SpecController.info :=
                      {| ep_route := Some "/a"; ep_methods := ["GET"];
                         ep_traffic := {[ "b1" := 1%Q ]} |};
                    SpecController.shadow := ∅ |} ]};
     SpecController.backends := {[ "b1" := backend_f; "b2" := backend_f ]};
     SpecController.routers := [("router-0" : @router env)] |}.

(** A process connected to a controller that holds [registry]. *)
Definition serving : world :=
  mkWorld true ["node-0"] {[ handle := registry ]}
    [("node-0", "0.0.0.0", 8000)] (Some handle).

(** [init(); create_backend("b1", f); create_backend("b2", f);
    create_endpoint("e", backend="b1", route="/a", methods=["get"])]. *)
Definition setup : @M env ctl unit :=
  init VNone "0.0.0.0" 8000 [];;
  create_backend "b1" (VAtom (AObject "f")) [] VNone None;;
  create_backend "b2" (VAtom (AObject "f")) [] VNone None;;
  create_endpoint "e" (VStr "b1") (VStr "/a") (VList [AStr "get"]).

Definition halves : gmap string Q := {[ "b1" := 1 # 2; "b2" := 1 # 2 ]}.

Definition only_max_batch_size : BackendConfig :=
  {| num_replicas := None;
     max_batch_size := Some (Some 10);
     batch_wait_timeout := None;
     max_concurrent_queries := None;
     internal_metadata := None |}.

(** A controller like [ctl] whose [shutdown] method raises. *)
Definition stuck : exn := Exn RayActorError "shutdown did not complete".

Definition stuck_ctl : @ServeController env :=
  @Build_ServeController env
    (@SpecController.registry env)
    (@SpecController.start env params)
    (λ r, (Raise stuck, r))
    (@SpecController.get_all_endpoints env)
    (@SpecController.get_all_backends env)
    (@SpecController.get_routers env)
    (@SpecController.create_endpoint env)
    (@SpecController.delete_endpoint env)
    (@SpecController.update_backend_config env)
    (@SpecController.get_backend_config env)
    (@SpecController.create_backend env)
    (@SpecController.delete_backend env)
    (@SpecController.set_traffic env params)
    (@SpecController.shadow_traffic env).

(** The world [serving] with that controller. *)
Definition stuck_serving : @World env stuck_ctl :=
  mkWorld true ["node-0"] {[ handle := registry ]}
    [("node-0", "0.0.0.0", 8000)] (Some handle).

End Example.


(** * Properties of the client API, for every controller *)

Section Client.
Context `{Ctl : ServeController}.
Implicit Types (w : World) (h : string) (c : ctl).

Lemma ensure_connected_None {A} (f : M A) w :
  controller w = None → _ensure_connected f w = (Raise not_connected, w).
Proof.
  intros Hc. unfold _ensure_connected, mbind, M_bind, _get_controller.
  now rewrite Hc.
Qed.

Lemma ensure_connected_Some {A} (f : M A) w h :
  controller w = Some h → _ensure_connected f w = f w.
Proof.
  intros Hc. unfold _ensure_connected, mbind, M_bind, _get_controller.
  now rewrite Hc.
Qed.

Lemma set_actors_id w h c :
  actors w !! h = Some c → set_actors (<[h := c]> (actors w)) w = w.
Proof.
  intros Ha. destruct w; unfold set_actors; cbn in *. f_equal.
  now apply insert_id.
Qed.

Lemma bind_returns {A B} (m : M A) (k : A → M B) w w' (b : B) :
  mbind k m w = (Return b, w') →
  ∃ a w1, m w = (Return a, w1) ∧ k a w1 = (Return b, w').
Proof.
  unfold mbind, M_bind. destruct (m w) as [[a|e] w1]; [eauto|discriminate].
Qed.

Lemma remote_read_connected {A} (method : ctl → A) w h c :
  connected_to w h c → remote_read method w = (Return (method c), w).
Proof. intros [Hc Ha]. unfold remote_read. now rewrite Hc, Ha. Qed.

Lemma remote_connected {A} (method : ctl → outcome A * ctl) w h c :
  connected_to w h c →
  remote method w =
    (fst (method c), set_actors (<[h := snd (method c)]> (actors w)) w).
Proof.
  intros [Hc Ha]. unfold remote. rewrite Hc, Ha. now destruct (method c).
Qed.

Lemma list_endpoints_connected w h c :
  connected_to w h c →
  list_endpoints w = (Return (remote_get_all_endpoints c), w).
Proof.
  intros Hw. unfold list_endpoints.
  rewrite (ensure_connected_Some _ w h) by apply Hw.
  now apply remote_read_connected with h.
Qed.

Lemma list_backends_connected w h c :
  connected_to w h c →
  list_backends w = (Return (remote_get_all_backends c), w).
Proof.
  intros Hw. unfold list_backends.
  rewrite (ensure_connected_Some _ w h) by apply Hw.
  now apply remote_read_connected with h.
Qed.

(** Every function of the administrative surface is behind the guard. *)
Lemma run_not_connected (op : call) w :
  controller w = None → run op w = (Raise not_connected, w).
Proof.
  intros Hc.
  destruct op; unfold run, fmap, M_fmap, mbind, M_bind;
    unfold shutdown, create_endpoint, delete_endpoint, list_endpoints,
      update_backend_config, get_backend_config, create_backend,
      list_backends, delete_backend, set_traffic, shadow_traffic, get_handle;
    now rewrite ensure_connected_None.
Qed.

Lemma run_all_not_connected (op : call) (ops : list call) w :
  controller w = None → run_all (op :: ops) w = (Raise not_connected, w).
Proof.
  intros Hc. cbn [run_all]. unfold mbind at 1. unfold M_bind.
  now rewrite run_not_connected.
Qed.

(** What a completed [shutdown] leaves: the actor is killed and the global
    is reset. *)
Lemma shutdown_returns w w' :
  shutdown w = (Return tt, w') →
  ∃ h c, connected_to w h c
    ∧ w' = set_controller None
             (set_actors (delete h (<[h := snd (remote_shutdown c)]> (actors w))) w).
Proof.
  unfold shutdown. destruct (controller w) as [h|] eqn:Hc.
  - rewrite (ensure_connected_Some _ w h Hc).
    unfold mbind, M_bind, remote, get_world, modify. rewrite Hc.
    destruct (actors w !! h) as [c|] eqn:Ha; [|discriminate].
    destruct (remote_shutdown c) as [[[]|e] c'] eqn:Hs; [|discriminate].
    cbn. rewrite Hc. intros [= <-]. exists h, c. now rewrite Hs.
  - now rewrite ensure_connected_None.
Qed.

(** A call of [init] that returns leaves the process connected to a live
    controller. *)
Lemma init_returns name host port mw w w' :
  init name host port mw w = (Return tt, w') →
  ∃ h c, connected_to w' h c.
Proof.
  unfold init, connected_to.
  destruct name as [[| | |s|]|]; try discriminate.
  all: unfold mbind, M_bind, get_world, modify, lift; cbn.
  all: match goal with
       | |- context [format_actor_name ?a ?n] =>
         generalize (format_actor_name a n); intros h
       end.
  all: destruct (ray_is_initialized w); cbn.
  all: destruct (actors w !! h) as [c|] eqn:Ha; cbn.
  all: try (intros [= <-]; cbn; eauto).
  all: destruct (ray_get_all _) as [[]|]; [|discriminate].
  all: intros [= <-]; cbn; eexists _, _; split;
       [reflexivity | apply lookup_insert_eq].
Qed.

(** C5: once [shutdown] has completed (the controller actor is killed and
    the handle dropped), every further administrative call, alone or at the
    head of any script of calls, fails with the not-connected error
    ([RayServeException]: please run serve.init), and leaves the world as it
    is; a call can succeed again only after [init], which connects the
    process to a live controller. *)
Theorem calls_after_shutdown_fail w w' :
  shutdown w = (Return tt, w') →
  controller w' = None
  ∧ (∀ h, controller w = Some h → actors w' !! h = None)
  ∧ (∀ op, run op w' = (Raise not_connected, w'))
  ∧ (∀ op ops, run_all (op :: ops) w' = (Raise not_connected, w'))
  ∧ (∀ name host port mw w'',
       init name host port mw w' = (Return tt, w'') →
       ∃ h c, connected_to w'' h c
         ∧ list_endpoints w'' = (Return (remote_get_all_endpoints c), w'')).
Proof.
  intros Hs. destruct (shutdown_returns _ _ Hs) as (h & c & [Hc Ha] & ->).
  split; [reflexivity|]. split.
  - intros h' Hh'. rewrite Hc in Hh'. injection Hh' as <-. cbn.
    apply lookup_delete_eq.
  - split; [intros; now apply run_not_connected|].
    split; [intros; now apply run_all_not_connected|].
    intros name host port mw w'' Hi.
    destruct (init_returns _ _ _ _ _ _ Hi) as (h' & c' & Hw).
    exists h', c'. split; [exact Hw | now apply list_endpoints_connected with h'].
Qed.

(** C8: [init] against a name whose controller actor already exists
    returns at once with the global bound to that actor: no actor is
    created, none is replaced, no readiness probe is launched, and calling
    [init] again changes nothing more. *)
Theorem init_reconnects w (name : option string) host port mw c :
  let h := format_actor_name SERVE_CONTROLLER_NAME name in
  let w' := set_controller (Some h) (set_ray_is_initialized true w) in
  actors w !! h = Some c →
  init (optional_str name) host port mw w = (Return tt, w')
  ∧ connected_to w' h c
  ∧ actors w' = actors w
  ∧ probes w' = probes w
  ∧ init (optional_str name) host port mw w' = (Return tt, w').
Proof.
  intros h w' Ha.
  assert (Hinit : ∀ w0, actors w0 !! h = Some c →
            init (optional_str name) host port mw w0
            = (Return tt, set_controller (Some h) (set_ray_is_initialized true w0))).
  { intros w0 Ha0. unfold init.
    assert (Hbody : ∀ o : option string,
      (match optional_str o with VStr s => Some s | _ => None end) = o)
      by (now intros [s|]).
    destruct name as [s|]; cbn [optional_str];
      unfold mbind, M_bind, get_world, modify; cbn;
      fold h; destruct w0 as [[] ns acts ps ctrl]; cbn in *; now rewrite Ha0. }
  split; [now apply Hinit|].
  split; [split; [reflexivity | exact Ha]|].
  split; [reflexivity|]. split; [reflexivity|].
  rewrite Hinit by exact Ha. reflexivity.
Qed.

(** C3: when the tag is already in the backend registry, [create_backend]
    raises the already-registered [ValueError] (the conflict) whatever the
    other arguments are, and the world after the call is the world before
    it: registries, actors and the handle are untouched. *)
Theorem create_backend_existing_tag w h c backend_tag func_or_class
    actor_init_args ray_actor_options config :
  connected_to w h c →
  is_Some (remote_get_all_backends c !! backend_tag) →
  create_backend backend_tag func_or_class actor_init_args ray_actor_options
      config w
  = (Raise (Exn ValueError already_registered_msg), w).
Proof.
  intros Hw Htag. unfold create_backend.
  rewrite (ensure_connected_Some _ w h) by apply Hw.
  unfold mbind, M_bind. rewrite (list_backends_connected w h c Hw).
  now rewrite bool_decide_eq_true_2.
Qed.

(** C9: for an endpoint name that is not in the endpoint registry,
    [get_handle] with [missing_ok=False] fails on its assertion
    ([AssertionError], the not-found failure), while with [missing_ok=True]
    the membership test is skipped and the call returns a handle bound to
    the first router and to that endpoint name. *)
Theorem get_handle_missing_endpoint w h c endpoint_name r rs :
  connected_to w h c →
  remote_get_all_endpoints c !! endpoint_name = None →
  remote_get_routers c = r :: rs →
  get_handle endpoint_name false w = (Raise (Exn AssertionError ""), w)
  ∧ get_handle endpoint_name true w
    = (Return {| handle_router := r; handle_endpoint := endpoint_name |}, w).
Proof.
  intros Hw Hmiss Hr. unfold get_handle.
  rewrite !(ensure_connected_Some _ w h) by apply Hw.
  unfold mbind, M_bind. cbn [negb]. split.
  - rewrite (remote_read_connected _ w h c Hw), Hmiss.
    now rewrite bool_decide_eq_false_2 by (intros [? [=]]).
  - unfold mret, M_ret.
    now rewrite (remote_read_connected _ w h c Hw), Hr.
Qed.

(** *** Validation of the arguments of [create_endpoint] *)

(** C10, as amended: when [backend] is [None] or not a string,
    [create_endpoint] raises before any remote call and leaves the world as
    it is; on a connected process the exception is the [TypeError] of the
    check of [backend], on a process that is not connected it is the
    not-connected error of the guard, which runs first. *)
Theorem create_endpoint_backend_not_str w endpoint_name backend route methods :
  (∀ b, backend ≠ VStr b) →
  create_endpoint endpoint_name backend route methods w
  = (Raise (match controller w with
            | Some _ => backend_type_error backend
            | None => not_connected
            end), w).
Proof.
  intros Hb. unfold create_endpoint.
  destruct (controller w) as [h|] eqn:Hc.
  - rewrite (ensure_connected_Some _ w h Hc). unfold mbind, M_bind.
    destruct backend as [[| | |b|]|]; try reflexivity. now destruct (Hb b).
  - now rewrite ensure_connected_None.
Qed.

(** C6, as amended: when [route] is not [None] and is not a string that
    starts with a slash, [create_endpoint] raises and leaves the world as it
    is, so no endpoint is created; on a connected process the exception is a
    [TypeError] (of the check of [backend] if that fails first, else of the
    check of [route]), on a process that is not connected it is the
    not-connected error of the guard. *)
Theorem create_endpoint_bad_route w endpoint_name backend route methods :
  bad_route route →
  create_endpoint endpoint_name backend route methods w
  = (Raise (match controller w with
            | Some _ =>
              match backend with
              | VStr _ => route_type_error
              | _ => backend_type_error backend
              end
            | None => not_connected
            end), w).
Proof.
  intros [Hnone Hslash]. unfold create_endpoint.
  destruct (controller w) as [h|] eqn:Hc.
  - rewrite (ensure_connected_Some _ w h Hc). unfold mbind, M_bind.
    destruct backend as [[| | |b|]|]; try reflexivity.
    cbn. destruct route as [[| | |r|]|]; try reflexivity.
    + now destruct Hnone.
    + now rewrite (Hslash r eq_refl).
  - now rewrite ensure_connected_None.
Qed.

(** *** Sorting and upper-casing the methods *)

Lemma sort_insert_perm x l s : sort_insert x l = Some s → s ≡ₚ x :: l.
Proof.
  revert s. induction l as [|y l IH]; intros s; cbn.
  - now intros [= <-].
  - destruct (py_lt y x) as [[]|]; [|intros [= <-]; reflexivity|discriminate].
    destruct (sort_insert x l) as [s'|]; [|discriminate].
    intros [= <-]. rewrite (IH s' eq_refl). apply Permutation_swap.
Qed.

Lemma sorted_perm l s : sorted l = Some s → s ≡ₚ l.
Proof.
  revert s. induction l as [|x l IH]; intros s; cbn.
  - now intros [= <-].
  - destruct (sorted l) as [s'|]; [|discriminate].
    intros Hi. rewrite (sort_insert_perm _ _ _ Hi). now rewrite (IH s' eq_refl).
Qed.

(** Strings always compare: sorting a list of strings cannot raise. *)
Lemma sort_insert_strings x (l : list string) :
  ∃ l', sort_insert (AStr x) (AStr <$> l) = Some (AStr <$> l').
Proof.
  induction l as [|y l [l' IH]]; cbn.
  - now exists [x].
  - destruct (String.ltb y x).
    + rewrite IH. now exists (y :: l').
    + now exists (x :: y :: l).
Qed.

Lemma sorted_strings (l : list string) :
  ∃ l', sorted (AStr <$> l) = Some (AStr <$> l').
Proof.
  induction l as [|x l [l' IH]]; cbn.
  - now exists [].
  - rewrite IH. apply sort_insert_strings.
Qed.







(** X9: with [backend] a string, [route] valid and [methods] a list that
    sorts, a registered endpoint name conflicts exactly when the stored
    route is the supplied one: the comparison of the methods is between the
    two results of [sort()], which are both [None].  Without the conflict
    the call goes on with the methods as [sort()] left them. *)
Lemma create_endpoint_registered_name w h c endpoint_name old b route
    methods s :
  connected_to w h c →
  remote_get_all_endpoints c !! endpoint_name = Some old →
  route_ok route = true →
  sorted methods = Some s →
  create_endpoint endpoint_name (VStr b) (optional_str route) (VList methods) w
  = if bool_decide (ep_route old = route)
    then (Raise (Exn ValueError conflict_msg), w)
    else (upper_methods ← lift (upper_methods s);
          remote (remote_create_endpoint endpoint_name {[b := 1%Q]} route
                    upper_methods)) w.
Proof.
  intros Hw Hold Hroute Hs. unfold create_endpoint.
  rewrite (ensure_connected_Some _ w h) by apply Hw.
  unfold mbind at 1. unfold M_bind at 1. unfold mret at 1, M_ret at 1.
  assert (Hr : (match optional_str route with
                | VNone => mret None
                | VStr r =>
                  if startswith_slash r then mret (Some r)
                  else raise TypeError "route must be a string starting with '/'."
                | _ => raise TypeError "route must be a string starting with '/'."
                end : M (option string)) w = (Return route, w)).
  { destruct route as [r|]; cbn in *; [now rewrite Hroute | reflexivity]. }
  unfold mbind at 1. unfold M_bind at 1. rewrite Hr.
  unfold mbind at 1. unfold M_bind at 1. unfold mret at 1, M_ret at 1.
  unfold mbind at 1. unfold M_bind at 1.
  rewrite (list_endpoints_connected w h c Hw), Hold.
  destruct (sorted_strings (ep_methods old)) as [l' Hl'].
  unfold mbind at 1. unfold M_bind at 1.
  unfold mbind at 1. unfold M_bind at 1.
  unfold lift at 1, list_sort at 1. rewrite Hl'.
  unfold mbind at 1. unfold M_bind at 1.
  unfold lift at 1, list_sort at 1. rewrite Hs.
  rewrite (bool_decide_eq_true_2 (() = ())) by reflexivity. cbn [andb].
  destruct (bool_decide (ep_route old = route)); reflexivity.
Qed.

End Client.

(** * Properties that rest on the controller of the specification *)

Section SpecModel.
Context `{P : SpecController.Params}.
#[local] Existing Instance SpecController.controller.
Implicit Types (w : World) (h : string) (r : SpecController.registry).

Lemma sums_to_one_iff (weights : gmap string Q) :
  SpecController.sums_to_one weights = true
  ↔ (Qabs (SpecController.weight_sum weights - 1) <= SpecController.eps)%Q.
Proof. apply Qle_bool_iff. Qed.

Lemma all_registered_iff (weights : gmap string Q) r :
  SpecController.all_registered weights r = true
  ↔ ∀ tag, is_Some (weights !! tag) → is_Some (SpecController.backends r !! tag).
Proof.
  unfold SpecController.all_registered. rewrite forallb_forall. split.
  - intros Hall tag [q Hq]. eapply bool_decide_eq_true_1, Hall.
    apply list_elem_of_In, list_elem_of_fmap. exists (tag, q).
    split; [reflexivity | now apply elem_of_map_to_list].
  - intros Hall tag Hin. apply bool_decide_eq_true_2, Hall.
    apply list_elem_of_In, list_elem_of_fmap in Hin as ([tag' q] & -> & Hin).
    apply elem_of_map_to_list in Hin. now exists q.
Qed.

Lemma valid_weights_iff (weights : gmap string Q) r :
  SpecController.valid_weights weights r
  ↔ SpecController.sums_to_one weights = true
    ∧ SpecController.all_registered weights r = true.
Proof. unfold SpecController.valid_weights. now rewrite sums_to_one_iff, all_registered_iff. Qed.

(** [set_traffic] on a process connected to the controller [r]. *)
Lemma set_traffic_connected w h r endpoint_name weights :
  connected_to w h r →
  (¬ SpecController.valid_weights weights r →
     ∃ msg, set_traffic endpoint_name weights w
            = (Raise (Exn ValidationError msg), w))
  ∧ (∀ w', set_traffic endpoint_name weights w = (Return tt, w') →
       SpecController.valid_weights weights r
       ∧ ∃ old, SpecController.get_all_endpoints r !! endpoint_name = Some old
           ∧ list_endpoints w'
             = (Return (<[endpoint_name :=
                            {| ep_route := ep_route old;
                               ep_methods := ep_methods old;
                               ep_traffic := weights |}]>
                          (SpecController.get_all_endpoints r)), w')).
Proof.
  intros Hw. pose proof Hw as [Hc Ha].
  pose proof (valid_weights_iff weights r) as Hvalid.
  unfold set_traffic. rewrite (ensure_connected_Some _ w h Hc).
  rewrite (remote_connected _ w h r Hw).
  cbn [remote_set_traffic SpecController.controller].
  unfold SpecController.set_traffic, SpecController.fail.
  destruct (SpecController.sums_to_one weights); cbn [negb].
  2:{ split; [|discriminate]. intros _. eexists. cbn.
      f_equal. exact (set_actors_id w h r Ha). }
  destruct (SpecController.all_registered weights r); cbn [negb].
  2:{ split; [|discriminate]. intros _. eexists. cbn.
      f_equal. exact (set_actors_id w h r Ha). }
  split; [intros Hn; destruct Hn; now apply Hvalid|].
  destruct (SpecController.endpoints r !! endpoint_name) as [e|] eqn:He;
    [|discriminate].
  cbn. intros w' [= <-]. split; [now apply Hvalid|].
  exists (SpecController.info e). split.
  - unfold SpecController.get_all_endpoints. now rewrite lookup_fmap, He.
  - erewrite list_endpoints_connected;
      [|split; [exact Hc | apply lookup_insert_eq]].
    cbn. unfold SpecController.get_all_endpoints. cbn.
    now rewrite fmap_insert.
Qed.

(** C2: whenever [set_traffic] is accepted, the process is connected to a
    controller, the weights sum to 1.0 within [eps] and name registered
    backends only, and [list_endpoints] then shows the endpoint with exactly
    these weights (route and methods as before, the other endpoints as
    before); and on a process connected to a controller, a weight set that
    does not sum to 1.0 within [eps], or that names an unregistered backend,
    is rejected with [ValidationError] and nothing changes. *)
Theorem set_traffic_valid_weights w endpoint_name weights :
  (∀ w', set_traffic endpoint_name weights w = (Return tt, w') →
     ∃ h r old,
       connected_to w h r
       ∧ SpecController.valid_weights weights r
       ∧ SpecController.get_all_endpoints r !! endpoint_name = Some old
       ∧ list_endpoints w'
         = (Return (<[endpoint_name :=
                        {| ep_route := ep_route old;
                           ep_methods := ep_methods old;
                           ep_traffic := weights |}]>
                      (SpecController.get_all_endpoints r)), w'))
  ∧ (∀ h r, connected_to w h r → ¬ SpecController.valid_weights weights r →
       ∃ msg, set_traffic endpoint_name weights w
              = (Raise (Exn ValidationError msg), w)).
Proof.
  split.
  - intros w' Hrun.
    destruct (controller w) as [h|] eqn:Hc.
    2:{ unfold set_traffic in Hrun.
        now rewrite ensure_connected_None in Hrun. }
    destruct (actors w !! h) as [r|] eqn:Ha.
    2:{ unfold set_traffic in Hrun.
        rewrite (ensure_connected_Some _ w h Hc) in Hrun.
        unfold remote in Hrun. now rewrite Hc, Ha in Hrun. }
    destruct (set_traffic_connected w h r endpoint_name weights (conj Hc Ha))
      as [_ Haccepted].
    destruct (Haccepted w' Hrun) as (Hvalid & old & Hold & Hlist).
    exists h, r, old. split; [exact (conj Hc Ha)|].
    split; [exact Hvalid|]. split; [exact Hold | exact Hlist].
  - intros h r Hw Hinvalid.
    now apply (set_traffic_connected w h r endpoint_name weights Hw).
Qed.

(** C4: [update_backend_config] on a registered tag, with a dictionary or a
    [BackendConfig] of options: the tag stays registered with the same
    replica configuration, every field the options leave out keeps its
    prior value, whether the call is accepted or rejected, and when it is
    accepted the stored configuration is the prior one with exactly the
    supplied fields replaced. *)
Theorem update_backend_config_keeps_other_fields w w' h r backend_tag b
    options config_options o :
  connected_to w h r →
  SpecController.backends r !! backend_tag = Some b →
  config_options = CfgDict options ∨ config_options = CfgObject options →
  update_backend_config backend_tag config_options w = (o, w') →
  ∃ r' b',
    connected_to w' h r'
    ∧ SpecController.backends r' !! backend_tag = Some b'
    ∧ SpecController.replica b' = SpecController.replica b
    ∧ (num_replicas options = None →
         num_replicas (SpecController.config b')
         = num_replicas (SpecController.config b))
    ∧ (max_batch_size options = None →
         max_batch_size (SpecController.config b')
         = max_batch_size (SpecController.config b))
    ∧ (batch_wait_timeout options = None →
         batch_wait_timeout (SpecController.config b')
         = batch_wait_timeout (SpecController.config b))
    ∧ (max_concurrent_queries options = None →
         max_concurrent_queries (SpecController.config b')
         = max_concurrent_queries (SpecController.config b))
    ∧ (internal_metadata options = None →
         internal_metadata (SpecController.config b')
         = internal_metadata (SpecController.config b))
    ∧ (o = Return tt →
         SpecController.config b'
         = SpecController.merge_config (SpecController.config b) options)
    ∧ (o ≠ Return tt → b' = b).
Proof.
  intros Hw Hb Hopt. pose proof Hw as [Hc Ha].
  unfold update_backend_config. rewrite (ensure_connected_Some _ w h Hc).
  assert (Hcall : (match config_options with
                   | CfgOther _ =>
                     raise TypeError
                       "config_options must be a BackendConfig or dictionary."
                   | CfgDict o0 | CfgObject o0 =>
                     remote (remote_update_backend_config backend_tag o0)
                   end : M unit) w
                  = remote (remote_update_backend_config backend_tag options) w)
    by (now destruct Hopt as [-> | ->]).
  rewrite Hcall, (remote_connected _ w h r Hw).
  cbn [remote_update_backend_config SpecController.controller].
  unfold SpecController.update_backend_config, SpecController.fail.
  rewrite Hb.
  destruct (SpecController.complete _); cbn; intros [= <- <-].
  - eexists _, _. split; [split; [exact Hc | apply lookup_insert_eq]|].
    split; [apply lookup_insert_eq|]. cbn.
    repeat split; try (intros ->; reflexivity). now intros [].
  - exists r, b. split; [split; [exact Hc | apply lookup_insert_eq]|].
    split; [exact Hb|]. repeat split; discriminate.
Qed.


End SpecModel.

(** * Further properties of the client API, for every controller *)

Section Lifecycle.
Context `{Ctl : ServeController}.
Implicit Types (w : World) (h : string) (c : ctl).

(** [init] with a name that passes the type check, in one equation. *)
Lemma init_named (name : option string) host port mw w :
  init (optional_str name) host port mw w
  = let h := format_actor_name SERVE_CONTROLLER_NAME name in
    let w0 := set_ray_is_initialized true w in
    match actors w !! h with
    | Some _ => (Return tt, set_controller (Some h) w0)
    | None =>
      (ray_get_all (readiness host port w),
       set_probes (probes w ++ ((λ n, (n, host, port)) <$> node_ids w))%list
         (set_controller (Some h)
            (set_actors (<[h := ServeController_init name host port mw]>
                           (actors w)) w0)))
    end.
Proof.
  unfold init, readiness.
  destruct name as [s|]; cbn [optional_str];
    unfold mbind, M_bind, get_world, modify, lift; cbn;
    match goal with
    | |- context [format_actor_name ?a ?n] =>
      generalize (format_actor_name a n); intros h
    end;
    destruct w as [[] ns acts ps ctrl]; cbn;
    match goal with
    | |- context [acts !! ?h] => destruct (acts !! h)
    end; cbn; try reflexivity;
    match goal with
    | |- context [ray_get_all ?l] => destruct (ray_get_all l)
    end; reflexivity.
Qed.

(** X1: a [name] that is neither [None] nor a string is rejected with
    [TypeError] before anything else happens: Ray is not initialised, no
    actor is looked up or created, the global is not touched. *)
Theorem init_rejects_name w name host port mw :
  name ≠ VNone → (∀ s, name ≠ VStr s) →
  init name host port mw w
  = (Raise (Exn TypeError "name must be a string."), w).
Proof.
  intros Hnone Hstr. unfold init.
  destruct name as [[| | |s|]|]; try reflexivity.
  - now destruct Hnone.
  - now destruct (Hstr s).
Qed.

(** X2: when no actor is registered under the formatted name, [init]
    creates exactly this one actor from its arguments, binds the global to
    it, launches one readiness probe per node, and returns or raises as the
    probes do; the other actors stay as they are. *)
Theorem init_starts_controller w (name : option string) host port mw :
  let h := format_actor_name SERVE_CONTROLLER_NAME name in
  actors w !! h = None →
  ∃ w', init (optional_str name) host port mw w
        = (ray_get_all (readiness host port w), w')
    ∧ controller w' = Some h
    ∧ actors w' = <[h := ServeController_init name host port mw]> (actors w)
    ∧ (∀ h', h' ≠ h → actors w' !! h' = actors w !! h')
    ∧ probes w' = (probes w ++ ((λ n, (n, host, port)) <$> node_ids w))%list
    ∧ ray_is_initialized w' = true
    ∧ node_ids w' = node_ids w.
Proof.
  intros h Ha. rewrite init_named. cbv zeta. fold h. rewrite Ha.
  eexists. split; [reflexivity|]. cbn.
  repeat split. intros h' Hne. now apply lookup_insert_ne.
Qed.

(** X3: once [init] has run with a well-typed name, whether it returned or
    the readiness probes raised, any later [init] with the same name
    returns at once and changes nothing, whatever host, port and
    middlewares it is given: they are ignored and no probe is launched
    again. *)
Theorem init_again_changes_nothing w w' (name : option string) o
    host port mw host' port' mw' :
  init (optional_str name) host port mw w = (o, w') →
  init (optional_str name) host' port' mw' w' = (Return tt, w').
Proof.
  rewrite !init_named. cbv zeta.
  set (h := format_actor_name SERVE_CONTROLLER_NAME name).
  destruct (actors w !! h) as [c|] eqn:Ha; intros [= <- <-]; cbn.
  - now rewrite Ha.
  - now rewrite lookup_insert_eq.
Qed.

(** [shutdown] on a connected process, in one equation. *)
Lemma shutdown_connected w h c :
  connected_to w h c →
  shutdown w
  = match fst (remote_shutdown c) with
    | Return _ =>
      (Return tt, set_controller None (set_actors (delete h (actors w)) w))
    | Raise e =>
      (Raise e, set_actors (<[h := snd (remote_shutdown c)]> (actors w)) w)
    end.
Proof.
  intros [Hc Ha]. unfold shutdown. rewrite (ensure_connected_Some _ w h Hc).
  unfold mbind, M_bind, remote, get_world, modify. rewrite Hc, Ha.
  destruct (remote_shutdown c) as [[[]|e] c']; cbn; [|reflexivity].
  rewrite Hc. unfold set_controller, set_actors. cbn.
  now rewrite delete_insert_eq.
Qed.

(** X4: a [shutdown] whose controller method returns kills the actor the
    process is connected to and resets the global; every other named actor
    (another Serve instance of the cluster) stays alive and unchanged, and
    so do the node list and the probe log. *)
Theorem shutdown_kills_own_controller w h c :
  connected_to w h c →
  is_raise (fst (remote_shutdown c)) = false →
  ∃ w', shutdown w = (Return tt, w')
    ∧ controller w' = None
    ∧ actors w' !! h = None
    ∧ (∀ h', h' ≠ h → actors w' !! h' = actors w !! h')
    ∧ probes w' = probes w
    ∧ node_ids w' = node_ids w
    ∧ ray_is_initialized w' = ray_is_initialized w.
Proof.
  intros Hw Hret. rewrite (shutdown_connected w h c Hw).
  destruct (fst (remote_shutdown c)) as [[]|e]; [|discriminate].
  eexists. split; [reflexivity|]. cbn.
  split; [reflexivity|]. split; [apply lookup_delete_eq|].
  split; [|repeat split]. intros h' Hne. now apply lookup_delete_ne.
Qed.

(** X5: when the controller's own [shutdown] method raises, the exception
    propagates, the actor is not killed and the global keeps its handle:
    the process is still connected to the (now possibly half shut down)
    controller. *)
Theorem shutdown_failure_keeps_connection w h c e :
  connected_to w h c →
  fst (remote_shutdown c) = Raise e →
  ∃ w', shutdown w = (Raise e, w')
    ∧ connected_to w' h (snd (remote_shutdown c))
    ∧ (∀ h', h' ≠ h → actors w' !! h' = actors w !! h').
Proof.
  intros Hw He. rewrite (shutdown_connected w h c Hw), He.
  eexists. split; [reflexivity|]. destruct Hw as [Hc _].
  split; [split; [exact Hc | apply lookup_insert_eq]|].
  intros h' Hne. cbn. now apply lookup_insert_ne.
Qed.

(** X6: after a completed [shutdown], [init] with the name of the instance
    that was shut down does not reconnect: it starts a new controller from
    its own arguments under the same actor name and probes every node
    again. *)
Theorem shutdown_then_init_starts_fresh w w1 (name : option string)
    host port mw :
  let h := format_actor_name SERVE_CONTROLLER_NAME name in
  controller w = Some h →
  shutdown w = (Return tt, w1) →
  ∃ w2, init (optional_str name) host port mw w1
        = (ray_get_all (readiness host port w), w2)
    ∧ connected_to w2 h (ServeController_init name host port mw)
    ∧ probes w2 = (probes w ++ ((λ n, (n, host, port)) <$> node_ids w))%list.
Proof.
  intros h Hc Hs.
  destruct (shutdown_returns _ _ Hs) as (h0 & c & [Hc0 Ha] & ->).
  assert (h0 = h) as -> by congruence.
  rewrite init_named. cbv zeta. fold h. cbn. rewrite lookup_delete_eq.
  eexists. split; [reflexivity|]. cbn.
  split; [split; [reflexivity | apply lookup_insert_eq]|reflexivity].
Qed.

End Lifecycle.

Section Validation.
Context `{Ctl : ServeController}.
Implicit Types (w : World) (h : string) (c : ctl).

(** [create_endpoint] once [backend] and [route] have passed their checks
    and [methods] is a list. *)
Lemma create_endpoint_checked w h c endpoint_name b (route : option string)
    (methods : list atom) :
  connected_to w h c →
  route_ok route = true →
  create_endpoint endpoint_name (VStr b) (optional_str route) (VList methods) w
  = (methods ← match remote_get_all_endpoints c !! endpoint_name with
       | Some old =>
         '(methods_old_sort, _) ← lift (list_sort (AStr <$> ep_methods old));
         '(methods_sort, methods) ← lift (list_sort methods);
         if bool_decide (methods_old_sort = methods_sort)
            && bool_decide (ep_route old = route)
         then raise ValueError conflict_msg
         else mret methods
       | None => mret methods
       end;
     upper_methods ← lift (upper_methods methods);
     remote (remote_create_endpoint endpoint_name {[b := 1%Q]} route
               upper_methods)) w.
Proof.
  intros Hw Hroute. unfold create_endpoint.
  rewrite (ensure_connected_Some _ w h) by apply Hw.
  unfold mbind at 1. unfold M_bind at 1. unfold mret at 1, M_ret at 1.
  assert (Hr : (match optional_str route with
                | VNone => mret None
                | VStr r =>
                  if startswith_slash r then mret (Some r)
                  else raise TypeError "route must be a string starting with '/'."
                | _ => raise TypeError "route must be a string starting with '/'."
                end : M (option string)) w = (Return route, w)).
  { destruct route as [r|]; cbn in *; [now rewrite Hroute | reflexivity]. }
  unfold mbind at 1. unfold M_bind at 1. rewrite Hr.
  unfold mbind at 1. unfold M_bind at 1. unfold mret at 1, M_ret at 1.
  unfold mbind at 1. unfold M_bind at 1.
  now rewrite (list_endpoints_connected w h c Hw).
Qed.

Lemma upper_methods_strings (ms : list string) :
  upper_methods (AStr <$> ms) = Return (upper <$> ms).
Proof. induction ms as [|m ms IH]; cbn; [reflexivity | now rewrite IH]. Qed.

Lemma upper_methods_non_string (l : list atom) a :
  a ∈ l → (∀ s, a ≠ AStr s) →
  upper_methods l = Raise (Exn TypeError not_a_string_msg).
Proof.
  intros Hin Ha. induction l as [|x l IH]; [now apply elem_of_nil in Hin|].
  apply elem_of_cons in Hin as [<- | Hin].
  - destruct a as [| | |s|]; try reflexivity. now destruct (Ha s).
  - cbn. rewrite (IH Hin). now destruct x.
Qed.

(** X7: with [backend] a string and [route] valid, a [methods] argument that
    is not a list is rejected with [TypeError] before the controller is
    asked anything; nothing changes. *)
Theorem create_endpoint_methods_not_list w h endpoint_name b
    (route : option string) (a : atom) :
  controller w = Some h →
  route_ok route = true →
  create_endpoint endpoint_name (VStr b) (optional_str route) (VAtom a) w
  = (Raise (Exn TypeError
              "methods must be a list of strings, but got type {}"), w).
Proof.
  intros Hc Hroute. unfold create_endpoint.
  rewrite (ensure_connected_Some _ w h Hc).
  unfold mbind, M_bind, mret, M_ret.
  destruct route as [r|]; cbn in *; [now rewrite Hroute | reflexivity].
Qed.

(** X8: a [methods] list with an element that is not a string never
    reaches the controller: the call raises and nothing changes; when the
    endpoint name is not registered yet, the exception is the [TypeError]
    of the upper-casing loop. *)
Theorem create_endpoint_non_string_method w h c endpoint_name b
    (route : option string) (methods : list atom) a :
  connected_to w h c →
  route_ok route = true →
  a ∈ methods → (∀ s, a ≠ AStr s) →
  ∃ e, create_endpoint endpoint_name (VStr b) (optional_str route)
         (VList methods) w = (Raise e, w)
    ∧ (remote_get_all_endpoints c !! endpoint_name = None →
       e = Exn TypeError not_a_string_msg).
Proof.
  intros Hw Hroute Hin Ha.
  rewrite (create_endpoint_checked w h c _ _ _ _ Hw Hroute).
  destruct (remote_get_all_endpoints c !! endpoint_name) as [old|].
  - destruct (sorted_strings (ep_methods old)) as [l' Hl'].
    unfold mbind, M_bind, lift, list_sort. rewrite Hl'.
    destruct (sorted methods) as [s|] eqn:Hs.
    + rewrite (bool_decide_eq_true_2 (() = ())) by reflexivity. cbn [andb].
      destruct (bool_decide (ep_route old = route)).
      * eexists. split; [reflexivity | discriminate].
      * unfold mret, M_ret.
        rewrite (upper_methods_non_string s a); [|now rewrite (sorted_perm _ _ Hs)|exact Ha].
        eexists. split; [reflexivity | discriminate].
    + eexists. split; [reflexivity | discriminate].
  - unfold mbind, M_bind, mret, M_ret, lift.
    rewrite (upper_methods_non_string methods a Hin Ha).
    eexists. split; reflexivity.
Qed.

(** X10: for a name that is not registered yet, with [backend] a string,
    [route] valid and all methods strings, [create_endpoint] is exactly one
    run of the controller method on the given name, the policy
    [{backend: 1.0}], the route and the methods upper-cased in the order
    given; what the controller returns or raises is what the call returns
    or raises. *)
Theorem create_endpoint_fresh_name w h c endpoint_name b
    (route : option string) (ms : list string) :
  connected_to w h c →
  route_ok route = true →
  remote_get_all_endpoints c !! endpoint_name = None →
  let run := remote_create_endpoint endpoint_name {[b := 1%Q]} route
               (upper <$> ms) c in
  create_endpoint endpoint_name (VStr b) (optional_str route)
    (VList (AStr <$> ms)) w
  = (fst run, set_actors (<[h := snd run]> (actors w)) w).
Proof.
  intros Hw Hroute Hfresh run.
  rewrite (create_endpoint_checked w h c _ _ _ _ Hw Hroute), Hfresh.
  unfold mbind, M_bind, mret, M_ret, lift. rewrite upper_methods_strings.
  now rewrite (remote_connected _ w h c Hw).
Qed.

(** X11: options that are neither a [BackendConfig] nor a dictionary never
    reach the controller: [update_backend_config] raises, with [TypeError]
    on a connected process and with the not-connected error of the guard
    otherwise, and leaves everything as it is. *)
Theorem update_backend_config_type_check w backend_tag v :
  update_backend_config backend_tag (CfgOther v) w
  = (Raise (match controller w with
            | Some _ => Exn TypeError config_options_msg
            | None => not_connected
            end), w).
Proof.
  unfold update_backend_config. destruct (controller w) as [h|] eqn:Hc.
  - now rewrite (ensure_connected_Some _ w h Hc).
  - now rewrite ensure_connected_None.
Qed.

(** X12: [shadow_traffic] passes a proportion on to the controller exactly
    when it is a number between 0 and 1, both bounds included; anything
    else is rejected with [TypeError] and nothing changes. *)
Theorem shadow_traffic_range w h c endpoint_name backend_tag proportion :
  connected_to w h c →
  (∀ p, as_number proportion = Some p → (0 <= p)%Q → (p <= 1)%Q →
     let run := remote_shadow_traffic endpoint_name backend_tag p c in
     shadow_traffic endpoint_name backend_tag proportion w
     = (fst run, set_actors (<[h := snd run]> (actors w)) w))
  ∧ ((∀ p, as_number proportion = Some p → ¬ ((0 <= p)%Q ∧ (p <= 1)%Q)) →
     shadow_traffic endpoint_name backend_tag proportion w
     = (Raise (Exn TypeError proportion_msg), w)).
Proof.
  intros Hw. pose proof Hw as [Hc _]. unfold shadow_traffic.
  rewrite (ensure_connected_Some _ w h Hc). split.
  - intros p Hp H0 H1. cbv zeta. destruct proportion as [a|l]; [|discriminate].
    cbn in Hp. rewrite Hp.
    apply Qle_bool_iff in H0. apply Qle_bool_iff in H1. rewrite H0, H1.
    cbn [andb]. now rewrite (remote_connected _ w h c Hw).
  - intros Hout. destruct proportion as [a|l]; [|reflexivity].
    cbn in Hout. destruct (atom_number a) as [p|]; [|reflexivity].
    destruct (Qle_bool 0 p) eqn:H0, (Qle_bool p 1) eqn:H1; try reflexivity.
    destruct (Hout p eq_refl). split; now apply Qle_bool_iff.
Qed.

End Validation.

Section BackendsAndHandles.
Context `{Ctl : ServeController}.
Implicit Types (w : World) (h : string) (c : ctl).

(** [create_backend] on a tag that is not registered yet. *)
Lemma create_backend_fresh_tag w h c backend_tag func_or_class
    actor_init_args ray_actor_options config :
  connected_to w h c →
  remote_get_all_backends c !! backend_tag = None →
  create_backend backend_tag func_or_class actor_init_args ray_actor_options
    config w
  = (replica_config ←
       lift (ReplicaConfig func_or_class actor_init_args ray_actor_options);
     backend_config ← match default (CfgDict no_options) config with
       | CfgDict d => lift (parse_obj (with_metadata (metadata_of replica_config) d))
       | CfgObject o => mret (with_metadata (metadata_of replica_config) o)
       | CfgOther _ => raise TypeError config_msg
       end;
     lift (_validate_complete backend_config);;
     remote (remote_create_backend backend_tag backend_config replica_config)) w.
Proof.
  intros Hw Hfresh. unfold create_backend.
  rewrite (ensure_connected_Some _ w h) by apply Hw.
  unfold mbind at 1. unfold M_bind at 1.
  rewrite (list_backends_connected w h c Hw), Hfresh.
  now rewrite bool_decide_eq_false_2 by (intros [? [=]]).
Qed.

(** X13: a call of [create_backend] that returns was made on a tag that was
    not registered, built the replica configuration, stamped the
    configuration with the metadata of that replica (overriding any
    [internal_metadata] the caller set; a dictionary is parsed after the
    stamp), had [_validate_complete] accept it, and then ran the controller
    method exactly once, which is the only change to the world. *)
Theorem create_backend_returns w w' backend_tag func_or_class
    actor_init_args ray_actor_options config :
  create_backend backend_tag func_or_class actor_init_args ray_actor_options
    config w = (Return tt, w') →
  ∃ h c rc bc,
    connected_to w h c
    ∧ remote_get_all_backends c !! backend_tag = None
    ∧ ReplicaConfig func_or_class actor_init_args ray_actor_options = Return rc
    ∧ match default (CfgDict no_options) config with
      | CfgDict d => parse_obj (with_metadata (metadata_of rc) d) = Return bc
      | CfgObject o => bc = with_metadata (metadata_of rc) o
      | CfgOther _ => False
      end
    ∧ _validate_complete bc = Return tt
    ∧ fst (remote_create_backend backend_tag bc rc c) = Return tt
    ∧ w' = set_actors
             (<[h := snd (remote_create_backend backend_tag bc rc c)]>
                (actors w)) w.
Proof.
  intros Hrun.
  destruct (controller w) as [h|] eqn:Hc.
  2:{ unfold create_backend in Hrun.
      now rewrite ensure_connected_None in Hrun. }
  destruct (actors w !! h) as [c|] eqn:Ha.
  2:{ unfold create_backend in Hrun.
      rewrite (ensure_connected_Some _ w h Hc) in Hrun.
      apply bind_returns in Hrun as (bs & w1 & Hl & _).
      unfold list_backends in Hl.
      rewrite (ensure_connected_Some _ w h Hc) in Hl.
      unfold remote_read in Hl. now rewrite Hc, Ha in Hl. }
  assert (Hw : connected_to w h c) by now split.
  destruct (remote_get_all_backends c !! backend_tag) as [b|] eqn:Htag.
  { unfold create_backend in Hrun.
    rewrite (ensure_connected_Some _ w h Hc) in Hrun.
    unfold mbind at 1 in Hrun. unfold M_bind at 1 in Hrun.
    rewrite (list_backends_connected w h c Hw), Htag in Hrun.
    now rewrite bool_decide_eq_true_2 in Hrun by eauto. }
  rewrite (create_backend_fresh_tag w h c _ _ _ _ _ Hw Htag) in Hrun.
  apply bind_returns in Hrun as (rc & w1 & Hrc & Hrun).
  unfold lift in Hrc. injection Hrc as Hrc <-.
  apply bind_returns in Hrun as (bc & w1 & Hbc & Hrun).
  apply bind_returns in Hrun as ([] & w2 & Hval & Hrun).
  unfold lift in Hval. injection Hval as Hval <-.
  assert (match default (CfgDict no_options) config with
          | CfgDict d => parse_obj (with_metadata (metadata_of rc) d) = Return bc
          | CfgObject o => bc = with_metadata (metadata_of rc) o
          | CfgOther _ => False
          end ∧ w1 = w) as [Hcfg ->].
  { destruct (default (CfgDict no_options) config); [| |discriminate].
    - unfold lift in Hbc. now injection Hbc as -> <-.
    - now injection Hbc as <- <-. }
  rewrite (remote_connected _ w h c Hw) in Hrun. injection Hrun as Hret <-.
  exists h, c, rc, bc. repeat split; assumption.
Qed.

(** X14: on a tag that is not registered, a [config] that is neither a
    dictionary nor a [BackendConfig] is rejected with [TypeError] and
    nothing changes; the replica configuration is built first, so its
    exception, if it raises, is the one the caller sees. *)
Theorem create_backend_bad_config_type w h c backend_tag func_or_class
    actor_init_args ray_actor_options v :
  connected_to w h c →
  remote_get_all_backends c !! backend_tag = None →
  create_backend backend_tag func_or_class actor_init_args ray_actor_options
    (Some (CfgOther v)) w
  = (Raise (match ReplicaConfig func_or_class actor_init_args
                    ray_actor_options with
            | Raise e => e
            | Return _ => Exn TypeError config_msg
            end), w).
Proof.
  intros Hw Hfresh.
  rewrite (create_backend_fresh_tag w h c _ _ _ _ _ Hw Hfresh).
  unfold mbind, M_bind, lift.
  now destruct (ReplicaConfig _ _ _).
Qed.

(** X15: when the membership test of [get_handle] passes or is skipped
    ([missing_ok], or the endpoint is registered), the handle is bound to
    the first router the controller reports and to the endpoint name; with
    no router at all the call raises [IndexError].  Nothing changes either
    way. *)
Theorem get_handle_first_router w h c endpoint_name missing_ok :
  connected_to w h c →
  missing_ok = true ∨ is_Some (remote_get_all_endpoints c !! endpoint_name) →
  get_handle endpoint_name missing_ok w
  = (match remote_get_routers c with
     | r :: _ =>
       Return {| handle_router := r; handle_endpoint := endpoint_name |}
     | [] => Raise (Exn IndexError "list index out of range")
     end, w).
Proof.
  intros Hw Hpass. unfold get_handle.
  rewrite (ensure_connected_Some _ w h) by apply Hw.
  unfold mbind, M_bind.
  destruct missing_ok; cbn [negb].
  - unfold mret at 1, M_ret at 1.
    rewrite (remote_read_connected _ w h c Hw).
    now destruct (remote_get_routers c).
  - destruct Hpass as [[=]|Hreg].
    rewrite (remote_read_connected _ w h c Hw).
    rewrite bool_decide_eq_true_2 by exact Hreg.
    unfold mret at 1, M_ret at 1.
    rewrite (remote_read_connected _ w h c Hw).
    now destruct (remote_get_routers c).
Qed.

End BackendsAndHandles.

(** * The API at work in the example environment *)

(** The example world is what the set-up script builds from scratch. *)
Lemma setup_reaches_serving :
  Example.setup Example.fresh = (Return tt, Example.serving).
Proof. reflexivity. Qed.

Lemma serving_connected :
  connected_to Example.serving Example.handle Example.registry.
Proof. split; reflexivity. Qed.

Example upper_get : upper "get" = "GET" ∧ upper "Post" = "POST".
Proof. split; reflexivity. Qed.

Example sort_strings :
  list_sort [AStr "PUT"; AStr "GET"; AStr "POST"]
  = Return (tt, [AStr "GET"; AStr "POST"; AStr "PUT"]).
Proof. reflexivity. Qed.

Example sort_is_stable :
  sorted [AFloat 1; AInt 0; AInt 1] = Some [AInt 0; AFloat 1; AInt 1].
Proof. reflexivity. Qed.

Example sort_mixed_raises :
  is_raise (list_sort [AStr "GET"; AInt 1]) = true
  ∧ is_raise (list_sort [ANone; ANone]) = true
  ∧ is_raise (list_sort [ANone]) = false.
Proof. repeat split; reflexivity. Qed.

(** Creating a backend, then creating it again: the second call raises and
    the world stays as the first call left it. *)
Example create_backend_twice :
  let create := create_backend "b3" (VAtom (AObject "f")) [] VNone None in
  let w1 := snd (create Example.serving) in
  fst (create Example.serving) = Return tt
  ∧ create w1 = (Raise (Exn ValueError already_registered_msg), w1).
Proof. split; reflexivity. Qed.

(** C1, the defect: the endpoint ["e"] is registered on route ["/a"] with
    methods [["GET"]]; creating it again on the same route with the
    different methods [["POST"]] raises the conflict all the same, and
    nothing is registered. *)
Theorem create_endpoint_conflict_ignores_methods :
  list_endpoints Example.serving
  = (Return {[ "e" := {| ep_route := Some "/a"; ep_methods := ["GET"];
                         ep_traffic := {[ "b1" := 1%Q ]} |} ]},
     Example.serving)
  ∧ create_endpoint "e" (VStr "b2") (VStr "/a") (VList [AStr "POST"])
      Example.serving
    = (Raise (Exn ValueError conflict_msg), Example.serving).
Proof. split; reflexivity. Qed.

(** A different route on the same name raises no conflict in [api.py]. *)
Lemma create_endpoint_other_route_no_conflict :
  fst (create_endpoint "e" (VStr "b2") (VStr "/other") (VList [AStr "GET"])
         Example.serving)
  = Return tt.
Proof. reflexivity. Qed.

(** C6, as stated, fails before [init]: the route ["a"] has no leading
    slash, yet the call raises the not-connected [RayServeException], which
    is no validation error. *)
Lemma create_endpoint_bad_route_before_init :
  create_endpoint "e" (VStr "b1") (VStr "a") (VList [AStr "GET"]) Example.fresh
  = (Raise not_connected, Example.fresh)
  ∧ exn_cls not_connected = RayServeException
  ∧ exn_cls not_connected ≠ TypeError
  ∧ exn_cls not_connected ≠ ValidationError.
Proof. repeat split; try discriminate; reflexivity. Qed.

(** C10, as stated, fails before [init]: [backend] is omitted, yet the call
    raises the not-connected [RayServeException], not a [TypeError]. *)
Lemma create_endpoint_no_backend_before_init :
  create_endpoint "e" VNone VNone (VList [AStr "GET"]) Example.fresh
  = (Raise not_connected, Example.fresh)
  ∧ exn_cls not_connected = RayServeException
  ∧ exn_cls not_connected ≠ TypeError.
Proof. repeat split; try discriminate; reflexivity. Qed.

Lemma create_endpoint_bad_route_witness :
  bad_route (VStr "a")
  ∧ create_endpoint "e" (VStr "b1") (VStr "a") (VList [AStr "GET"])
      Example.serving
    = (Raise route_type_error, Example.serving).
Proof.
  assert (Hbad : bad_route (VStr "a"))
    by (split; [discriminate | now intros r [= <-]]).
  split; [exact Hbad|].
  exact (create_endpoint_bad_route Example.serving "e" (VStr "b1") (VStr "a")
           (VList [AStr "GET"]) Hbad).
Defined.

Lemma create_endpoint_backend_not_str_witness :
  create_endpoint "e" (VInt 3) VNone (VList [AStr "GET"]) Example.serving
  = (Raise (Exn TypeError "backend must be a string, got {}."),
     Example.serving).
Proof.
  apply (create_endpoint_backend_not_str Example.serving "e" (VInt 3) VNone
           (VList [AStr "GET"])).
  discriminate.
Defined.

Lemma set_traffic_valid_weights_witness :
  (∃ msg, set_traffic "e" {[ "b1" := 1 # 2 ]} Example.serving
          = (Raise (Exn ValidationError msg), Example.serving))
  ∧ ∃ h (r : @SpecController.registry Example.env) old,
      connected_to Example.serving h r
      ∧ @SpecController.valid_weights Example.env Example.params Example.halves r
      ∧ SpecController.get_all_endpoints r !! "e" = Some old
      ∧ list_endpoints (snd (set_traffic "e" Example.halves Example.serving))
        = (Return (<["e" := {| ep_route := ep_route old;
                               ep_methods := ep_methods old;
                               ep_traffic := Example.halves |}]>
                     (SpecController.get_all_endpoints r)),
           snd (set_traffic "e" Example.halves Example.serving)).
Proof.
  split.
  - apply (set_traffic_valid_weights Example.serving "e" {[ "b1" := 1 # 2 ]})
      with Example.handle Example.registry.
    + exact serving_connected.
    + intros [Hsum _]. now apply Hsum.
  - apply (set_traffic_valid_weights Example.serving "e" Example.halves).
    reflexivity.
Defined.

Lemma create_backend_existing_tag_witness :
  create_backend "b1" (VAtom (AObject "g")) [] VNone None Example.serving
  = (Raise (Exn ValueError already_registered_msg), Example.serving).
Proof.
  apply (create_backend_existing_tag Example.serving Example.handle
           Example.registry "b1").
  - exact serving_connected.
  - exists Example.default_config. reflexivity.
Defined.

Lemma update_backend_config_keeps_other_fields_witness :
  ∃ r' b',
    connected_to
      (snd (update_backend_config "b1" (CfgDict Example.only_max_batch_size)
              Example.serving)) Example.handle r'
    ∧ SpecController.backends r' !! "b1" = Some b'
    ∧ num_replicas (SpecController.config b') = Some 1
    ∧ batch_wait_timeout (SpecController.config b') = Some 0%Q
    ∧ max_batch_size (SpecController.config b') = Some (Some 10).
Proof.
  destruct (update_backend_config_keeps_other_fields Example.serving
              (snd (update_backend_config "b1"
                      (CfgDict Example.only_max_batch_size) Example.serving))
              Example.handle Example.registry "b1" Example.backend_f
              Example.only_max_batch_size
              (CfgDict Example.only_max_batch_size) (Return tt))
    as (r' & b' & Hw' & Hb' & _ & Hnum & _ & Hwait & _ & _ & Hmerged & _).
  - exact serving_connected.
  - reflexivity.
  - now left.
  - reflexivity.
  - exists r', b'. split; [exact Hw'|]. split; [exact Hb'|].
    split; [now rewrite Hnum|]. split; [now rewrite Hwait|].
    now rewrite Hmerged.
Defined.

Lemma calls_after_shutdown_fail_witness :
  run (CreateBackend "b3" (VAtom (AObject "f")) [] VNone None)
    (snd (shutdown Example.serving))
  = (Raise not_connected, snd (shutdown Example.serving))
  ∧ run_all [ListBackends; GetHandle "e" true] (snd (shutdown Example.serving))
    = (Raise not_connected, snd (shutdown Example.serving)).
Proof.
  destruct (calls_after_shutdown_fail Example.serving
              (snd (shutdown Example.serving)))
    as (_ & _ & Hrun & Hall & _).
  - reflexivity.
  - split; [apply Hrun | apply Hall].
Defined.


Lemma init_reconnects_witness :
  init VNone "127.0.0.1" 9000 [] Example.serving = (Return tt, Example.serving)
  ∧ init VNone "127.0.0.1" 9000 []
      (set_controller None Example.serving) = (Return tt, Example.serving).
Proof.
  split.
  - apply (init_reconnects Example.serving None "127.0.0.1" 9000 []
             Example.registry).
    reflexivity.
  - apply (init_reconnects (set_controller None Example.serving) None
             "127.0.0.1" 9000 [] Example.registry).
    reflexivity.
Defined.

Lemma get_handle_missing_endpoint_witness :
  get_handle "nowhere" false Example.serving
  = (Raise (Exn AssertionError ""), Example.serving)
  ∧ get_handle "nowhere" true Example.serving
    = (Return {| handle_router := ("router-0" : @router Example.env);
                 handle_endpoint := "nowhere" |}, Example.serving).
Proof.
  apply (get_handle_missing_endpoint Example.serving Example.handle
           Example.registry "nowhere" ("router-0" : @router Example.env) []).
  - exact serving_connected.
  - reflexivity.
  - reflexivity.
Defined.

(** ** The further properties at work *)

Lemma stuck_serving_connected :
  connected_to Example.stuck_serving Example.handle Example.registry.
Proof. split; reflexivity. Qed.

Lemma init_rejects_name_witness :
  init (VInt 3) "0.0.0.0" 8000 [] Example.fresh
  = (Raise (Exn TypeError "name must be a string."), Example.fresh).
Proof.
  apply (init_rejects_name Example.fresh (VInt 3) "0.0.0.0" 8000 []).
  - discriminate.
  - discriminate.
Defined.

Lemma init_starts_controller_witness :
  ∃ w', init VNone "0.0.0.0" 8000 [] Example.fresh = (Return tt, w')
    ∧ controller w' = Some Example.handle
    ∧ probes w' = [("node-0", "0.0.0.0", 8000)].
Proof.
  destruct (init_starts_controller Example.fresh None "0.0.0.0" 8000 [])
    as (w' & Hrun & Hc & _ & _ & Hp & _).
  - reflexivity.
  - exists w'. split; [exact Hrun|]. split; [exact Hc | exact Hp].
Defined.

Lemma init_again_changes_nothing_witness :
  init VNone "127.0.0.1" 9000 [VInt 1]
    (snd (init VNone "0.0.0.0" 8000 [] Example.fresh))
  = (Return tt, snd (init VNone "0.0.0.0" 8000 [] Example.fresh)).
Proof.
  apply (init_again_changes_nothing Example.fresh
           (snd (init VNone "0.0.0.0" 8000 [] Example.fresh)) None
           (fst (init VNone "0.0.0.0" 8000 [] Example.fresh))
           "0.0.0.0" 8000 []).
  reflexivity.
Defined.

Lemma shutdown_kills_own_controller_witness :
  ∃ w', shutdown Example.serving = (Return tt, w')
    ∧ controller w' = None
    ∧ actors w' !! Example.handle = None.
Proof.
  destruct (shutdown_kills_own_controller Example.serving Example.handle
              Example.registry) as (w' & Hrun & Hc & Ha & _).
  - exact serving_connected.
  - reflexivity.
  - exists w'. split; [exact Hrun|]. split; [exact Hc | exact Ha].
Defined.

Lemma shutdown_failure_keeps_connection_witness :
  ∃ w', shutdown Example.stuck_serving = (Raise Example.stuck, w')
    ∧ connected_to w' Example.handle Example.registry.
Proof.
  destruct (shutdown_failure_keeps_connection Example.stuck_serving
              Example.handle Example.registry Example.stuck)
    as (w' & Hrun & Hw' & _).
  - exact stuck_serving_connected.
  - reflexivity.
  - exists w'. split; [exact Hrun | exact Hw'].
Defined.

Lemma shutdown_then_init_starts_fresh_witness :
  ∃ w2, init VNone "127.0.0.1" 9000 [] (snd (shutdown Example.serving))
        = (Return tt, w2)
    ∧ connected_to w2 Example.handle
        (@SpecController.start Example.env Example.params None "127.0.0.1"
           9000 []).
Proof.
  destruct (shutdown_then_init_starts_fresh Example.serving
              (snd (shutdown Example.serving)) None "127.0.0.1" 9000 [])
    as (w2 & Hrun & Hw2 & _).
  - reflexivity.
  - reflexivity.
  - exists w2. split; [exact Hrun | exact Hw2].
Defined.

Lemma create_endpoint_methods_not_list_witness :
  create_endpoint "e2" (VStr "b1") (VStr "/x") (VStr "GET") Example.serving
  = (Raise (Exn TypeError
              "methods must be a list of strings, but got type {}"),
     Example.serving).
Proof.
  apply (create_endpoint_methods_not_list Example.serving Example.handle "e2"
           "b1" (Some "/x") (AStr "GET")).
  - reflexivity.
  - reflexivity.
Defined.

Lemma create_endpoint_non_string_method_witness :
  create_endpoint "e2" (VStr "b1") VNone (VList [AStr "GET"; AInt 1])
    Example.serving
  = (Raise (Exn TypeError not_a_string_msg), Example.serving).
Proof.
  destruct (create_endpoint_non_string_method Example.serving Example.handle
              Example.registry "e2" "b1" None [AStr "GET"; AInt 1] (AInt 1))
    as (e & Hrun & He).
  - exact serving_connected.
  - reflexivity.
  - apply elem_of_cons. right. apply elem_of_cons. now left.
  - discriminate.
  - rewrite <- (He eq_refl). exact Hrun.
Defined.

Lemma create_endpoint_registered_name_witness :
  create_endpoint "e" (VStr "b2") (VStr "/a")
    (VList [AStr "PUT"; AStr "POST"]) Example.serving
  = (Raise (Exn ValueError conflict_msg), Example.serving).
Proof.
  apply (create_endpoint_registered_name Example.serving Example.handle
           Example.registry "e"
           {| ep_route := Some "/a"; ep_methods := ["GET"];
              ep_traffic := {[ "b1" := 1%Q ]} |}
           "b2" (Some "/a") [AStr "PUT"; AStr "POST"]
           [AStr "POST"; AStr "PUT"]).
  - exact serving_connected.
  - reflexivity.
  - reflexivity.
  - reflexivity.
Defined.

Lemma create_endpoint_fresh_name_witness :
  fst (create_endpoint "e2" (VStr "b2") (VStr "/b")
         (VList [AStr "post"; AStr "Get"]) Example.serving)
  = fst (SpecController.create_endpoint "e2" {[ "b2" := 1%Q ]} (Some "/b")
           ["POST"; "GET"] Example.registry).
Proof.
  exact (f_equal fst
           (create_endpoint_fresh_name Example.serving Example.handle
              Example.registry "e2" "b2" (Some "/b") ["post"; "Get"]
              serving_connected eq_refl eq_refl)).
Defined.

Lemma shadow_traffic_range_witness :
  fst (shadow_traffic "e" "b2" (VInt 1) Example.serving) = Return tt
  ∧ shadow_traffic "e" "b2" (VFloat (3 # 2)) Example.serving
    = (Raise (Exn TypeError proportion_msg), Example.serving).
Proof.
  destruct (shadow_traffic_range Example.serving Example.handle
              Example.registry "e" "b2" (VInt 1) serving_connected)
    as [Hin _].
  destruct (shadow_traffic_range Example.serving Example.handle
              Example.registry "e" "b2" (VFloat (3 # 2)) serving_connected)
    as [_ Hout].
  split.
  - rewrite (Hin (inject_Z 1) eq_refl); [reflexivity | discriminate ..].
  - apply Hout. intros p [= <-] [_ Hle]. now apply Hle.
Defined.

Lemma create_backend_returns_witness :
  ∃ (rc : @replica_config Example.env) bc,
    @ReplicaConfig Example.env (VAtom (AObject "g")) [VInt 1] VNone = Return rc
    ∧ @parse_obj Example.env
        (with_metadata (metadata_of rc) Example.only_max_batch_size)
      = Return bc
    ∧ @_validate_complete Example.env bc = Return tt
    ∧ fst (SpecController.create_backend "b3" bc rc Example.registry)
      = Return tt.
Proof.
  destruct (create_backend_returns Example.serving
              (snd (create_backend "b3" (VAtom (AObject "g")) [VInt 1] VNone
                      (Some (CfgDict Example.only_max_batch_size))
                      Example.serving))
              "b3" (VAtom (AObject "g")) [VInt 1] VNone
              (Some (CfgDict Example.only_max_batch_size)))
    as (h & c & rc & bc & [Hh Hc] & _ & Hrc & Hbc & Hval & Hret & _).
  - reflexivity.
  - assert (c = Example.registry) as ->.
    { destruct serving_connected as [Hh' Hc']. congruence. }
    exists rc, bc. split; [exact Hrc|]. split; [exact Hbc|].
    split; [exact Hval | exact Hret].
Defined.

Lemma create_backend_bad_config_type_witness :
  create_backend "b3" (VAtom (AObject "g")) [] VNone
    (Some (CfgOther (VStr "num_replicas=2"))) Example.serving
  = (Raise (Exn TypeError config_msg), Example.serving).
Proof.
  apply (create_backend_bad_config_type Example.serving Example.handle
           Example.registry "b3" (VAtom (AObject "g")) [] VNone
           (VStr "num_replicas=2")).
  - exact serving_connected.
  - reflexivity.
Defined.

Lemma get_handle_first_router_witness :
  get_handle "e" false Example.serving
  = (Return {| handle_router := ("router-0" : @router Example.env);
               handle_endpoint := "e" |}, Example.serving).
Proof.
  apply (get_handle_first_router Example.serving Example.handle
           Example.registry "e" false serving_connected).
  right. eexists. reflexivity.
Defined.

Example capital_letters :
  capital "a" = "A"%char ∧ capital "z" = "Z"%char ∧ capital "Q" = "Q"%char
  ∧ capital "/" = "/"%char ∧ capital "1" = "1"%char.
Proof. repeat split; reflexivity. Qed.
